(** * MentorX: the analysis page and the scoring core

    The repository's delivered program is the Next.js page
    [frontend/app/page.tsx]: a React component [Home] with five pieces of
    state, a drop handler, the asynchronous [handleAnalyze] and two views.
    This development embeds that component (state as a record, every
    [setX] as a record update, the outgoing request and the console as an
    event trace, the awaited [axios.post] as the point where the handler is
    split in two) and, separately, the scoring core that the specification
    describes and the page only consumes. *)

From Stdlib Require Import QArith Qround Qminmax Lqa.
From stdpp Require Import base option list strings pretty gmap.

(** ** JavaScript operators the page relies on

    JSON numbers are finite doubles; every double is a rational, and the
    operations the page applies to them (comparison, [Math.round],
    [Math.min], division of an integer below 2^53 by 2^20) are exact, so a
    [number] is a [Q] here. A value that may be [null] or [undefined] is an
    [option]. *)
Module JS.

Definition number := Q.

(** [a ?? b] *)
Definition nullish {A} (a : option A) (b : A) : A :=
  match a with Some v => v | None => b end.

(** [a?.f] *)
Definition chain {A B} (a : option A) (f : A -> option B) : option B :=
  match a with Some v => f v | None => None end.

(** The empty string is the only falsy string. *)
Definition truthy (s : string) : bool :=
  match s with EmptyString => false | String _ _ => true end.

(** [a || b] where [a] is a string or undefined. *)
Definition or_string (a : option string) (b : string) : string :=
  match a with
  | Some s => if truthy s then s else b
  | None => b
  end.

(** [a || b] where [a] is an array or undefined: an array is an object
    and is truthy also when it is empty. *)
Definition or_array {A} (a : option (list A)) (b : list A) : list A :=
  match a with Some l => l | None => b end.

(** [Math.round]: the nearest integer, ties towards +infinity. *)
Definition Math_round (x : number) : Z := Qfloor (x + (1 # 2))%Q.

(** [Math.min] of an integer-valued number and an integer literal. *)
Definition Math_min (a b : Z) : Z := Z.min a b.

(** [a > b] *)
Definition gt (a b : number) : bool := negb (Qle_bool a b).

(** [x.toFixed(1)] for a non-negative [x] below 1e21: the integer [n]
    with [n / 10] closest to [x] (the larger one on a tie), printed with
    its last digit after the point. *)
Definition toFixed1 (x : number) : string :=
  let n := Z.to_N (Qfloor (x * 10 + (1 # 2))%Q) in
  pretty (n / 10)%N +:+ "." +:+ pretty (n mod 10)%N.

End JS.

(** ** Types of the backend response

    The TypeScript interfaces declare every field as present; the page
    nevertheless reads them through [?.], [??] and [||], so every field
    that it guards is optional here. *)

Record VisualDetails := {
  engagement : option JS.number;
  energy : option JS.number
}.

Record VisualResult := {
  visual_score : option JS.number;
  visual_details : option VisualDetails
}.

Record AudioDetails := {
  pace_bpm : option JS.number;
  silence_ratio : option JS.number
}.

Record AudioResult := {
  prosody_score : option JS.number;
  audio_details : option AudioDetails
}.

Record ContentResult := {
  content_score : option JS.number;
  accuracy_score : option JS.number;
  structure_score : option JS.number;
  key_strengths : option (list string);
  missing_concepts : option (list string)
}.

Record PipelineResults := {
  visual : option VisualResult;
  audio : option AudioResult;
  content : option ContentResult
}.

Record AnalysisResult := {
  overall_score : JS.number;
  pipelines : option PipelineResults;
  transcript : option string
}.

(** ** Component state *)

Record File := {
  name : string;
  size : N   (* bytes *)
}.

Record State := {
  file : option File;
  previewUrl : option string;
  loading : bool;
  result : option AnalysisResult;
  error : option string
}.

(** [useState] initial values. *)
Definition initial : State :=
  {| file := None; previewUrl := None; loading := false;
     result := None; error := None |}.

Definition setFile (v : option File) (s : State) : State :=
  {| file := v; previewUrl := previewUrl s; loading := loading s;
     result := result s; error := error s |}.

Definition setPreviewUrl (v : option string) (s : State) : State :=
  {| file := file s; previewUrl := v; loading := loading s;
     result := result s; error := error s |}.

Definition setLoading (v : bool) (s : State) : State :=
  {| file := file s; previewUrl := previewUrl s; loading := v;
     result := result s; error := error s |}.

Definition setResult (v : option AnalysisResult) (s : State) : State :=
  {| file := file s; previewUrl := previewUrl s; loading := loading s;
     result := v; error := error s |}.

Definition setError (v : option string) (s : State) : State :=
  {| file := file s; previewUrl := previewUrl s; loading := loading s;
     result := result s; error := v |}.

(** ** The request and what axios makes of the answer *)

Inductive FormValue :=
| FileField (f : File)
| TextField (s : string).

Definition FormData := list (string * FormValue).

Record Request := {
  url : string;
  body : FormData;
  headers : list (string * string);
  timeout : N   (* milliseconds *)
}.

(** The body of an error answer, [{ "detail": string }]. *)
Record ErrorBody := {
  detail : option string
}.

Record ErrorResponse := {
  status : N;
  data : option ErrorBody
}.

(** What the [catch] block inspects of a rejection. *)
Record AxiosError := {
  response : option ErrorResponse;
  request : bool;       (* truthiness of [err.request] *)
  message : string
}.

(** [await axios.post(...)] either yields a response whose [data] the page
    stores, or throws. Which of the two happens is axios's decision, not
    the page's: with the default [validateStatus] it throws for every
    status outside 2xx, and the backend's only success status is 200. *)
Inductive AxiosOutcome :=
| Fulfilled (response_data : AnalysisResult)
| Rejected (err : AxiosError).

(** ** Observable effects *)

Inductive Event :=
| ConsoleLog (line : string)
| ConsoleError (label : option string) (err : AxiosError)
| AxiosPost (req : Request).

Record World := {
  st : State;
  events : list Event   (* oldest first *)
}.

Definition update (f : State -> State) (w : World) : World :=
  {| st := f (st w); events := events w |}.

Definition emit (e : Event) (w : World) : World :=
  {| st := st w; events := events w ++ [e] |}.

(** The requests a trace contains. *)
Definition posts (l : list Event) : list Request :=
  omap (fun e => match e with AxiosPost r => Some r | _ => None end) l.

(** ** The drop handler and the reset button *)

(** [onDrop]: [URL.createObjectURL] is the browser's; it is passed in. With
    no accepted file, [acceptedFiles[0]] is [undefined], [setFile] stores it
    and [URL.createObjectURL(undefined)] throws, so the remaining setters do
    not run. *)
Definition onDrop (createObjectURL : File -> string)
    (acceptedFiles : list File) (w : World) : World :=
  match acceptedFiles with
  | [] => update (setFile None) w
  | selectedFile :: _ =>
      update (setResult None)
        (update (setError None)
          (update (setPreviewUrl (Some (createObjectURL selectedFile)))
            (update (setFile (Some selectedFile)) w)))
  end.

(** The "Analyze another video" button of the results view. *)
Definition analyzeAnother (w : World) : World :=
  update (setPreviewUrl None) (update (setFile None) (update (setResult None) w)).

(** ** [handleAnalyze] *)

(** Cloud Run's limit is 32MB; the page keeps a safe limit of 30MB. *)
Definition MAX_FILE_SIZE_MB : N := 30.

(** [file.size / (1024 * 1024)] *)
Definition fileSizeMB (f : File) : JS.number :=
  (inject_Z (Z.of_N (size f)) / inject_Z (1024 * 1024))%Q.

(** [fileSizeMB > MAX_FILE_SIZE_MB] *)
Definition too_large (f : File) : bool :=
  JS.gt (fileSizeMB f) (inject_Z (Z.of_N MAX_FILE_SIZE_MB)).

Definition too_large_message (f : File) : string :=
  "⚠️ File is too large (" +:+ JS.toFixed1 (fileSizeMB f) +:+
  " MB). The limit is " +:+ pretty MAX_FILE_SIZE_MB +:+
  "MB. Please trim or compress the video.".

Definition msg_413 : string :=
  "❌ Upload Failed: Video is too large for the server (Limit: 32MB). Please compress or trim it.".

Definition msg_timeout : string :=
  "❌ Server Timeout: The AI model took too long. Please try a shorter video (under 1 minute).".

Definition msg_network : string :=
  "❌ Network Error: Could not connect to backend. The server might be waking up (Cold Start). Wait 10 seconds and try again.".

(** The generic branch: [err.response.data?.detail || "Unknown error occurred"]
    inside the template. *)
Definition msg_server (r : ErrorResponse) : string :=
  "❌ Server Error (" +:+ pretty (status r) +:+ "): " +:+
  JS.or_string (JS.chain (data r) detail) "Unknown error occurred".

(** The message the [catch] block passes to [setError]. *)
Definition error_message (err : AxiosError) : string :=
  match response err with
  | Some r =>
      if (status r =? 413)%N then msg_413
      else if (status r =? 503)%N || (status r =? 504)%N then msg_timeout
      else msg_server r
  | None =>
      if request err then msg_network
      else "❌ Error: " +:+ message err
  end.

Record Env := {
  NEXT_PUBLIC_BACKEND_URL : option string
}.

Definition backendUrl (env : Env) : string :=
  JS.or_string (NEXT_PUBLIC_BACKEND_URL env) "http://localhost:8000".

Definition formData (f : File) : FormData :=
  [("file", FileField f); ("topic", TextField "General Teaching")].

Definition analyze_request (env : Env) (f : File) : Request :=
  {| url := backendUrl env +:+ "/analyze";
     body := formData f;
     headers := [("Content-Type", "multipart/form-data")];
     timeout := 300000 |}.

(** Where the handler stands when it first yields: it has returned, or it
    is suspended on [await axios.post(...)]. *)
Inductive Started :=
| Returned (w : World)
| Awaiting (w : World) (req : Request).

(** [handleAnalyze] up to the [await]. *)
Definition handleAnalyze_start (env : Env) (w : World) : Started :=
  match file (st w) with
  | None => Returned w
  | Some f =>
      if too_large f then
        Returned (update (setError (Some (too_large_message f))) w)
      else
        let w1 := update (setError None) (update (setLoading true) w) in
        let w2 := emit (ConsoleLog ("Uploading to: " +:+ backendUrl env)) w1 in
        let req := analyze_request env f in
        Awaiting (emit (AxiosPost req) w2) req
  end.

(** [handleAnalyze] from the [await] on: the rest of the [try] block or the
    [catch] block, then [finally]. *)
Definition handleAnalyze_settle (o : AxiosOutcome) (w : World) : World :=
  let w' :=
    match o with
    | Fulfilled response_data => update (setResult (Some response_data)) w
    | Rejected err =>
        update (setError (Some (error_message err)))
          (emit (ConsoleError (Some "Analysis Error:") err) w)
    end in
  update (setLoading false) w'.

(** The whole handler against a network [net] that settles each request. *)
Definition handleAnalyze (env : Env) (net : Request -> AxiosOutcome)
    (w : World) : World :=
  match handleAnalyze_start env w with
  | Returned w' => w'
  | Awaiting w' req => handleAnalyze_settle (net req) w'
  end.

(** ** The other copy of the page

    The repository holds a second copy of [page.tsx], without the size
    limit: its handler has no pre-check, logs the error without a label and
    reports the body's [detail] or one fixed text. Its state, its drop
    handler and the expressions of its results view are those above. *)
Module Earlier.

(** [err.response?.data?.detail || "Analysis failed. Ensure backend is running."] *)
Definition error_message (err : AxiosError) : string :=
  JS.or_string (JS.chain (JS.chain (response err) data) detail)
    "Analysis failed. Ensure backend is running.".

Definition handleAnalyze_start (env : Env) (w : World) : Started :=
  match file (st w) with
  | None => Returned w
  | Some f =>
      let w1 := update (setError None) (update (setLoading true) w) in
      let req := analyze_request env f in
      Awaiting (emit (AxiosPost req) w1) req
  end.

Definition handleAnalyze_settle (o : AxiosOutcome) (w : World) : World :=
  let w' :=
    match o with
    | Fulfilled response_data => update (setResult (Some response_data)) w
    | Rejected err =>
        update (setError (Some (error_message err)))
          (emit (ConsoleError None err) w)
    end in
  update (setLoading false) w'.

Definition handleAnalyze (env : Env) (net : Request -> AxiosOutcome)
    (w : World) : World :=
  match handleAnalyze_start env w with
  | Returned w' => w'
  | Awaiting w' req => handleAnalyze_settle (net req) w'
  end.

End Earlier.

(** ** Rendering

    Class names and layout are left out; what is kept is which elements
    are rendered and with which values. *)

(** [MetricCard]: the score as text and the progress bar at [score * 10].
    The product here is the exact one; the page's product of doubles is
    the same for an integer score and may differ from it in the last bit
    otherwise. *)
Record MetricCardView := {
  title : string;
  score : JS.number;
  progress : JS.number
}.

Definition MetricCard (title : string) (score : JS.number) : MetricCardView :=
  {| title := title; score := score; progress := (score * 10)%Q |}.

(** The [<li>] elements of the two lists. The fallback items carry no key
    and another class than the mapped ones, so each kind is a constructor
    of its own. *)
Inductive Li :=
| LiStrength (key : nat) (strength : string)
| LiNoStrengths
| LiConcept (key : nat) (concept : string)
| LiKeepUp
| LiSlowDown.

Definition li_text (li : Li) : string :=
  match li with
  | LiStrength _ strength => strength
  | LiNoStrengths => "Analysis provided no specific strengths."
  | LiConcept _ concept => "Consider covering: " +:+ concept
  | LiKeepUp => "Keep up the great work!"
  | LiSlowDown => "Try slowing down your speaking pace slightly."
  end.

Record ResultsView := {
  overall : JS.number;
  cards : list MetricCardView;
  transcript_text : string;
  strengths : list Li;
  insights : list Li
}.

(** [pipelines?.content], [pipelines?.visual?.details],
    [pipelines?.audio?.details] *)
Definition content_of (p : option PipelineResults) : option ContentResult :=
  JS.chain p content.

Definition visual_details_of (p : option PipelineResults) : option VisualDetails :=
  JS.chain (JS.chain p visual) visual_details.

Definition audio_details_of (p : option PipelineResults) : option AudioDetails :=
  JS.chain (JS.chain p audio) audio_details.

(** The score of the "Pacing (BPM)" card. *)
Definition pacing_card_score (p : option PipelineResults) : JS.number :=
  inject_Z
    (JS.Math_min
       (JS.Math_round (JS.nullish (JS.chain (audio_details_of p) pace_bpm) 0%Q))
       160).

(** The six cards of the metrics grid, in the order of the source. *)
Definition metrics_grid (p : option PipelineResults) : list MetricCardView :=
  [ MetricCard "Clarity (Content)"
      (JS.nullish (JS.chain (content_of p) content_score) 0%Q);
    MetricCard "Engagement (Visual)"
      (JS.nullish (JS.chain (visual_details_of p) engagement) 0%Q);
    MetricCard "Tone/Variety (Audio)"
      (JS.nullish (JS.chain (JS.chain p audio) prosody_score) 0%Q);
    MetricCard "Technical Correctness"
      (JS.nullish (JS.chain (content_of p) accuracy_score) 0%Q);
    MetricCard "Confidence (Energy)"
      (JS.nullish (JS.chain (visual_details_of p) energy) 0%Q);
    MetricCard "Pacing (BPM)" (pacing_card_score p) ].

(** [key_strengths?.map(...) || <li>...</li>] *)
Definition strengths_list (p : option PipelineResults) : list Li :=
  JS.or_array
    (option_map (imap LiStrength) (JS.chain (content_of p) key_strengths))
    [LiNoStrengths].

(** [missing_concepts?.map(...) || <li>...</li>] *)
Definition concepts_list (p : option PipelineResults) : list Li :=
  JS.or_array
    (option_map (imap LiConcept) (JS.chain (content_of p) missing_concepts))
    [LiKeepUp].

(** [(pace_bpm ?? 0) > 150 && <li>...</li>] *)
Definition pace_advisory (p : option PipelineResults) : list Li :=
  if JS.gt (JS.nullish (JS.chain (audio_details_of p) pace_bpm) 0%Q) 150%Q
  then [LiSlowDown] else [].

Definition render_results (r : AnalysisResult) : ResultsView :=
  {| overall := overall_score r;
     cards := metrics_grid (pipelines r);
     transcript_text := JS.or_string (transcript r) "No transcript available.";
     strengths := strengths_list (pipelines r);
     insights := concepts_list (pipelines r) ++ pace_advisory (pipelines r) |}.

(** The block under the dropzone, rendered only when a file is chosen. *)
Record FilePanel := {
  file_name : string;
  preview : option string;     (* [previewUrl && <video .../>] *)
  alert : option string;       (* [error && <Alert>...</Alert>] *)
  button_disabled : bool;
  button_label : string
}.

Definition truthy_opt (s : option string) : option string :=
  match s with
  | Some v => if JS.truthy v then Some v else None
  | None => None
  end.

Definition render_panel (s : State) (f : File) : FilePanel :=
  {| file_name := name f;
     preview := truthy_opt (previewUrl s);
     alert := truthy_opt (error s);
     button_disabled := loading s;
     button_label :=
       if loading s then "Analyzing Pipeline..." else "Analyze Performance 🚀" |}.

Inductive View :=
| Results (r : ResultsView)
| Upload (panel : option FilePanel).

(** The component's return value: the results view as soon as [result] is
    set, the upload page otherwise. *)
Definition Home (s : State) : View :=
  match result s with
  | Some r => Results (render_results r)
  | None => Upload (option_map (render_panel s) (file s))
  end.

(** ** The scoring core

    The backend that answers [POST /analyze] is not among the sources: only
    its consumer, the page above, is. The definitions of this module follow
    the specification's sections 3, 4.4, 4.5 and 6. *)
Module Core.

(** Modelled from the spec: the closed set of pipeline kinds (sections 3
    and 9); the backend type is missing. *)
Inductive PipelineKind := Content | Acoustic | Visual.

#[global] Instance PipelineKind_eq_dec : EqDecision PipelineKind.
Proof. solve_decision. Defined.

#[global] Instance PipelineKind_countable : Countable PipelineKind.
Proof.
  refine (inj_countable'
            (fun k => match k with Content => 0 | Acoustic => 1 | Visual => 2 end)
            (fun n => match n with 0 => Content | 1 => Acoustic | _ => Visual end)
            _).
  intros []; reflexivity.
Defined.

(** Modelled from the spec: "exactly three variants, no others"; the
    backend constant is missing. *)
Definition all_kinds : list PipelineKind := [Content; Acoustic; Visual].

(** Modelled from the spec: the error taxonomy of section 7; the backend
    type is missing. *)
Inductive ErrorKind :=
| InputError
| TransientAnalyzerError
| AnalyzerTimeout
| AnalyzerRejection
| AggregationImpossible.

(** Modelled from the spec: RawMetrics, one fixed schema per pipeline
    (section 3); the backend type is missing. *)
Inductive RawMetrics :=
| ContentMetrics (accuracy structure : Q) (strengths missing_concepts : list string)
    (transcript : string)
| AcousticMetrics (pace_bpm silence_ratio pitch_variability : Q)
| VisualMetrics (engagement energy posture_openness : Q).

(** Modelled from the spec: PipelineOutcome, the tagged variant the
    Supervisor produces (section 3); the backend type is missing. *)
Inductive PipelineOutcome :=
| Success (m : RawMetrics)
| Failed (kind : ErrorKind) (message : string)
| TimedOut.

(** Modelled from the spec: the Normalizer's configuration; the backend
    constants are missing. The spec fixes the pacing band by example
    (100-140 BPM, zero at 60 and 180) and names a blend for the content
    score and a penalty for silence without giving their coefficients,
    which are therefore fields. *)
Record NormalizerConfig := {
  accuracy_share : Q;    (* weight of accuracy in the content blend *)
  silence_weight : Q     (* penalty per unit of silence ratio *)
}.

(** Modelled from the spec: "clamp to [0,10]"; the backend function is
    missing. *)
Definition clamp (x : Q) : Q := Qmax 0 (Qmin 10 x).

(** Modelled from the spec: the pacing score of the backend's Normalizer
    (section 4.4), 10 on the band 100-140 BPM, decaying linearly to 0 at 60
    and at 180 BPM and staying at 0 beyond; the backend function is
    missing. It is not what the page shows on its "Pacing (BPM)" card:
    that is [pacing_card_score]. *)
Definition pacing_score (pace_bpm : Q) : Q :=
  if Qlt_le_dec pace_bpm 100 then Qmax 0 (10 - (100 - pace_bpm) * (10 # 40))%Q
  else if Qlt_le_dec 140 pace_bpm then Qmax 0 (10 - (pace_bpm - 140) * (10 # 40))%Q
  else 10%Q.

(** Modelled from the spec: "silence_ratio contributes an independent
    penalty term subtracted from the pacing score, floor 0"; the backend
    function is missing. *)
Definition acoustic_subscore (cfg : NormalizerConfig)
    (pace_bpm silence_ratio : Q) : Q :=
  Qmax 0 (pacing_score pace_bpm - silence_weight cfg * silence_ratio)%Q.

(** Modelled from the spec: the per-kind formulas of section 4.4; the
    backend function is missing. *)
Definition subscore (cfg : NormalizerConfig) (m : RawMetrics) : Q :=
  match m with
  | ContentMetrics accuracy structure _ _ _ =>
      clamp (accuracy_share cfg * accuracy
             + (1 - accuracy_share cfg) * structure)%Q
  | AcousticMetrics pace_bpm silence_ratio _ =>
      acoustic_subscore cfg pace_bpm silence_ratio
  | VisualMetrics engagement energy _ => ((engagement + energy) / 2)%Q
  end.

(** Modelled from the spec: the outcomes other than [Success], that is
    [Failed] and [TimedOut]; the backend type is missing. *)
Definition unsuccessful (o : PipelineOutcome) : bool :=
  match o with
  | Success _ => false
  | Failed _ _ => true
  | TimedOut => true
  end.

(** Modelled from the spec: the fallback policy of section 4.4, a failed
    or timed-out pipeline has no sub-score; the backend function is
    missing. *)
Definition normalize (cfg : NormalizerConfig) (o : PipelineOutcome) : option Q :=
  match o with
  | Success m => Some (subscore cfg m)
  | Failed _ _ => None
  | TimedOut => None
  end.

(** Modelled from the spec: what the Normalizer hands to the Aggregator
    (section 4.4), the sub-scores that exist, keyed by kind, and the
    "missing" set of kinds that have none; the backend type is missing. *)
Record Normalized := {
  subscores : gmap PipelineKind Q;
  missing : gset PipelineKind
}.

(** Modelled from the spec: one pipeline's outcome entered into the
    Normalizer's result, as a sub-score or as a member of the missing set;
    the backend function is missing. *)
Definition record_outcome (cfg : NormalizerConfig) (k : PipelineKind)
    (o : PipelineOutcome) (n : Normalized) : Normalized :=
  match normalize cfg o with
  | Some s => {| subscores := <[k := s]> (subscores n); missing := missing n |}
  | None => {| subscores := subscores n; missing := {[k]} ∪ missing n |}
  end.

(** Modelled from the spec: the Normalizer over the settled
    [{kind -> PipelineOutcome}] mapping (sections 4.3 and 4.4); the backend
    function is missing. *)
Definition normalize_all (cfg : NormalizerConfig)
    (outcomes : PipelineKind -> PipelineOutcome) : Normalized :=
  foldr (fun k n => record_outcome cfg k (outcomes k) n)
        {| subscores := ∅; missing := ∅ |} all_kinds.

(** Modelled from the spec: Weights, one weight per pipeline (section 3);
    the backend type is missing. *)
Definition Weights := PipelineKind -> Q.

(** Modelled from the spec: the default weights of section 4.5, Content
    0.35, Acoustic 0.35, Visual 0.30; the backend constants are missing. *)
Definition default_weights : Weights :=
  fun k => match k with
           | Content => 35 # 100
           | Acoustic => 35 # 100
           | Visual => 30 # 100
           end.

(** The two pipelines other than [k]. *)
Definition others (k : PipelineKind) : PipelineKind * PipelineKind :=
  match k with
  | Content => (Acoustic, Visual)
  | Acoustic => (Content, Visual)
  | Visual => (Content, Acoustic)
  end.

(** Modelled from the spec: the pipelines in the complement of the
    missing set, each with its sub-score; the backend function is
    missing. *)
Definition present (n : Normalized) : list (PipelineKind * Q) :=
  omap (fun k => if decide (k ∈ missing n) then None
                 else option_map (pair k) (subscores n !! k))
       all_kinds.

(** Modelled from the spec: [Σ(weight_i × subscore_i)] and [Σ(weight_i)]
    of section 4.5; the backend functions are missing. *)
Definition weighted_sum (w : Weights) (ps : list (PipelineKind * Q)) : Q :=
  foldr (fun p acc => (w p.1 * p.2 + acc)%Q) 0%Q ps.

Definition weight_sum (w : Weights) (ps : list (PipelineKind * Q)) : Q :=
  foldr (fun p acc => (w p.1 + acc)%Q) 0%Q ps.

(** Modelled from the spec: the aggregation rule of section 4.5,
    [overall = Σ(weight_i × subscore_i) / Σ(weight_i)] over the pipelines
    that are not missing, unrounded, and a request-level error when none is
    left; the backend function is missing. *)
Definition aggregate (w : Weights) (n : Normalized) : ErrorKind + Q :=
  match present n with
  | [] => inl AggregationImpossible
  | ps => inr (weighted_sum w ps / weight_sum w ps)%Q
  end.

(** Modelled from the spec: the request-level errors of section 6 with
    their status codes; the backend type is missing. *)
Inductive RequestError :=
| PayloadTooLarge
| AllPipelinesMissing.

(** Modelled from the spec: the status codes of section 6; the backend
    function is missing. *)
Definition status_code (e : RequestError) : N :=
  match e with
  | PayloadTooLarge => 413
  | AllPipelinesMissing => 500
  end.

(** Modelled from the spec: the boundary of section 6, as far as the size
    limit and the topic default go: the size check comes first, and only a
    payload that passes it is handed to the three pipelines; the backend
    function is missing. The result lists the pipelines that were
    dispatched next to the answer. *)
Definition analyze (limit : N) (cfg : NormalizerConfig) (w : Weights)
    (run : N -> string -> PipelineKind -> PipelineOutcome)
    (payload_size : N) (topic : option string)
  : list PipelineKind * (RequestError + Q) :=
  if (limit <? payload_size)%N then ([], inl PayloadTooLarge)
  else
    let outcomes := run payload_size (default "General Teaching" topic) in
    (all_kinds,
     match aggregate w (normalize_all cfg outcomes) with
     | inl _ => inl AllPipelinesMissing
     | inr overall => inr overall
     end).

End Core.

(** [formData.get(key)]: the first value appended under [key]. *)
Definition form_get (key : string) (fd : FormData) : option FormValue :=
  option_map snd (List.find (fun p => String.eqb (fst p) key) fd).

(** ** Sample inputs *)

Definition lecture : File := {| name := "lecture.mp4"; size := 5242880 |}.

Definition long_lecture : File := {| name := "long.mp4"; size := 41943040 |}.

Definition blob (f : File) : string := "blob:" +:+ name f.

Definition fresh : World := {| st := initial; events := [] |}.

Definition local_env : Env := {| NEXT_PUBLIC_BACKEND_URL := None |}.

(** The response for the specification's scenario, with the pace left
    open: content 8/8, silence ratio 0.05, engagement 7, energy 8. *)
Definition scenario (pace : JS.number) : AnalysisResult :=
  {| overall_score := 8%Q;
     pipelines := Some
       {| visual := Some {| visual_score := Some (75 # 10)%Q;
                            visual_details := Some {| engagement := Some 7%Q;
                                                      energy := Some 8%Q |} |};
          audio := Some {| prosody_score := Some (75 # 10)%Q;
                           audio_details := Some {| pace_bpm := Some pace;
                                                    silence_ratio := Some (5 # 100)%Q |} |};
          content := Some {| content_score := Some 8%Q;
                             accuracy_score := Some 8%Q;
                             structure_score := Some 8%Q;
                             key_strengths := Some ["Clear examples"];
                             missing_concepts := Some [] |} |};
     transcript := Some "Today we look at recursion." |}.

(** A degraded answer: the audio pipeline is left out of [pipelines]. *)
Definition degraded : AnalysisResult :=
  {| overall_score := 8%Q;
     pipelines := Some
       {| visual := Some {| visual_score := Some (75 # 10)%Q;
                            visual_details := Some {| engagement := Some 7%Q;
                                                      energy := Some 8%Q |} |};
          audio := None;
          content := Some {| content_score := Some 8%Q;
                             accuracy_score := Some 8%Q;
                             structure_score := Some 8%Q;
                             key_strengths := None;
                             missing_concepts := Some [] |} |};
     transcript := Some "Today we look at recursion." |}.

Definition answers (o : AxiosOutcome) : Request -> AxiosOutcome := fun _ => o.

Definition http_error (code : N) (d : option string) : AxiosError :=
  {| response := Some {| status := code; data := Some {| detail := d |} |};
     request := true;
     message := "Request failed with status code " +:+ pretty code |}.

(** The page after [lecture] has been dropped, and while its request is
    pending. *)
Definition chosen : World := onDrop blob [lecture] fresh.

Definition pending : World :=
  emit (AxiosPost (analyze_request local_env lecture))
    (emit (ConsoleLog ("Uploading to: " +:+ backendUrl local_env))
       (update (setError None) (update (setLoading true) chosen))).

(** The fields the metrics grid reads behind [?? 0], in the order of
    their cards. *)
Inductive GuardedField :=
| ContentScore
| Engagement
| ProsodyScore
| AccuracyScore
| Energy.

Definition read_field (fld : GuardedField) (p : option PipelineResults)
  : option JS.number :=
  match fld with
  | ContentScore => JS.chain (content_of p) content_score
  | Engagement => JS.chain (visual_details_of p) engagement
  | ProsodyScore => JS.chain (JS.chain p audio) prosody_score
  | AccuracyScore => JS.chain (content_of p) accuracy_score
  | Energy => JS.chain (visual_details_of p) energy
  end.

Definition card_index (fld : GuardedField) : nat :=
  match fld with
  | ContentScore => 0
  | Engagement => 1
  | ProsodyScore => 2
  | AccuracyScore => 3
  | Energy => 4
  end.

(** The score shown on the [i]-th card. *)
Definition card_score (i : nat) (p : option PipelineResults) : option JS.number :=
  option_map score (metrics_grid p !! i).

Definition sample_cfg : Core.NormalizerConfig :=
  {| Core.accuracy_share := 1 # 2; Core.silence_weight := 10 |}.

(** The scenario's raw metrics with the visual pipeline timed out. *)
Definition visual_timed_out (k : Core.PipelineKind) : Core.PipelineOutcome :=
  match k with
  | Core.Content =>
      Core.Success (Core.ContentMetrics 8 8 ["Clear examples"] [] "Today we look at recursion.")
  | Core.Acoustic => Core.Success (Core.AcousticMetrics 120 0 (1 # 2))
  | Core.Visual => Core.TimedOut
  end.

(** Content and visual both at 8, the acoustic analyzer unavailable. *)
Definition acoustic_failed (k : Core.PipelineKind) : Core.PipelineOutcome :=
  match k with
  | Core.Content =>
      Core.Success (Core.ContentMetrics 8 8 ["Clear examples"] [] "Today we look at recursion.")
  | Core.Acoustic => Core.Failed Core.TransientAnalyzerError "service unavailable"
  | Core.Visual => Core.Success (Core.VisualMetrics 7 9 6)
  end.

(** The page after [long_lecture], 40 MB, has been dropped. *)
Definition chosen_long : World := onDrop blob [long_lecture] fresh.

(** ** The page in use

    What the user can do depends on what is rendered: the dropzone exists
    on the upload page only, the Analyze button only under a chosen file
    and is disabled while [loading], and "Analyze another video" only on
    the results view. A request that has been sent and not yet answered is
    kept beside the component until axios settles it. *)

Definition has_dropzone (v : View) : bool :=
  match v with
  | Upload _ => true
  | Results _ => false
  end.

Definition analyze_enabled (v : View) : bool :=
  match v with
  | Upload (Some panel) => negb (button_disabled panel)
  | _ => false
  end.

Definition has_analyze_another (v : View) : bool :=
  match v with
  | Results _ => true
  | Upload _ => false
  end.

Record Session := {
  page : World;
  in_flight : list Request
}.

Inductive Action :=
| Drop (acceptedFiles : list File)
| ClickAnalyze
| Answer (o : AxiosOutcome)
| ClickAnalyzeAnother.

(** One user action or one answer; [None] when the page offers no such
    action in its current view. *)
Definition act (createObjectURL : File -> string) (env : Env)
    (a : Action) (s : Session) : option Session :=
  match a with
  | Drop acceptedFiles =>
      if has_dropzone (Home (st (page s))) then
        Some {| page := onDrop createObjectURL acceptedFiles (page s);
                in_flight := in_flight s |}
      else None
  | ClickAnalyze =>
      if analyze_enabled (Home (st (page s))) then
        match handleAnalyze_start env (page s) with
        | Returned w' => Some {| page := w'; in_flight := in_flight s |}
        | Awaiting w' req =>
            Some {| page := w'; in_flight := in_flight s ++ [req] |}
        end
      else None
  | Answer o =>
      match in_flight s with
      | [] => None
      | _ :: rest =>
          Some {| page := handleAnalyze_settle o (page s); in_flight := rest |}
      end
  | ClickAnalyzeAnother =>
      if has_analyze_another (Home (st (page s))) then
        Some {| page := analyzeAnother (page s); in_flight := in_flight s |}
      else None
  end.

Fixpoint run (createObjectURL : File -> string) (env : Env)
    (acts : list Action) (s : Session) : option Session :=
  match acts with
  | [] => Some s
  | a :: rest =>
      match act createObjectURL env a s with
      | Some s' => run createObjectURL env rest s'
      | None => None
      end
  end.

(** The page as first rendered. *)
Definition opened : Session := {| page := fresh; in_flight := [] |}.

(** What holds of the page however it is used. *)
Definition session_inv (createObjectURL : File -> string) (env : Env)
    (s : Session) : Prop :=
  ((in_flight s = [] /\ loading (st (page s)) = false) \/
   (exists req, in_flight s = [req] /\ loading (st (page s)) = true /\
                result (st (page s)) = None /\ error (st (page s)) = None)) /\
  (result (st (page s)) <> None -> error (st (page s)) = None) /\
  (forall f, file (st (page s)) = Some f ->
             previewUrl (st (page s)) = Some (createObjectURL f)) /\
  (forall req, req ∈ posts (events (page s)) ->
     exists f, req = analyze_request env f /\ (size f <= 31457280)%N).

(** A session: a lecture is dropped and analyzed, the first attempt fails
    with 503, the retry succeeds, and the user starts over. *)
Definition sample_session : list Action :=
  [Drop [lecture]; ClickAnalyze; Answer (Rejected (http_error 503 None));
   ClickAnalyze; Answer (Fulfilled degraded); ClickAnalyzeAnother].

(** A session that stops while the request is pending. *)
Definition pending_session : list Action := [Drop [lecture]; ClickAnalyze].

(** A session in which a 40 MB file is dropped and Analyze is clicked. *)
Definition oversized_session : list Action := [Drop [long_lecture]; ClickAnalyze].

(** A rejection with no response: the request was made and nothing came
    back. *)
Definition network_error : AxiosError :=
  {| response := None; request := true; message := "Network Error" |}.

(** * Properties of the page *)

(** ** The size pre-check *)

Lemma fileSizeMB_le (f : File) (mb : N) :
  (fileSizeMB f <= inject_Z (Z.of_N mb))%Q <-> (size f <= mb * 1048576)%N.
Proof.
  unfold fileSizeMB.
  change (inject_Z (1024 * 1024)) with (inject_Z 1048576).
  assert (Hq : (inject_Z (Z.of_N (size f)) / inject_Z 1048576
                <= inject_Z (Z.of_N mb))%Q
               <-> (inject_Z (Z.of_N (size f))
                    <= inject_Z (Z.of_N mb * 1048576))%Q).
  { rewrite inject_Z_mult. unfold Qdiv.
    change (/ inject_Z 1048576)%Q with (1 # 1048576)%Q.
    change (inject_Z 1048576) with (1048576 # 1)%Q.
    split; intros H; lra. }
  rewrite Hq, <- Zle_Qle. lia.
Qed.

(** The pre-check fires exactly above 30 * 2^20 bytes. *)
Lemma too_large_iff (f : File) :
  too_large f = true <-> (31457280 < size f)%N.
Proof.
  unfold too_large, JS.gt.
  rewrite negb_true_iff, <- not_true_iff_false, Qle_bool_iff, fileSizeMB_le.
  unfold MAX_FILE_SIZE_MB. lia.
Qed.

Lemma too_large_false_iff (f : File) :
  too_large f = false <-> (size f <= 31457280)%N.
Proof.
  rewrite <- not_true_iff_false, too_large_iff. lia.
Qed.

(** ** The three ways [handleAnalyze] can start *)

Lemma start_no_file env w :
  file (st w) = None -> handleAnalyze_start env w = Returned w.
Proof. intros H. unfold handleAnalyze_start. by rewrite H. Qed.

Lemma start_too_large env w f :
  file (st w) = Some f -> too_large f = true ->
  handleAnalyze_start env w
  = Returned (update (setError (Some (too_large_message f))) w).
Proof. intros H1 H2. unfold handleAnalyze_start. by rewrite H1, H2. Qed.

Lemma start_dispatch env w f :
  file (st w) = Some f -> too_large f = false ->
  handleAnalyze_start env w
  = Awaiting
      (emit (AxiosPost (analyze_request env f))
         (emit (ConsoleLog ("Uploading to: " +:+ backendUrl env))
            (update (setError None) (update (setLoading true) w))))
      (analyze_request env f).
Proof. intros H1 H2. unfold handleAnalyze_start. by rewrite H1, H2. Qed.

(** Whenever the handler suspends, it is on the request for the chosen
    file, which it has just appended to the trace. *)
Lemma start_awaiting_inv env w w' req :
  handleAnalyze_start env w = Awaiting w' req ->
  exists f, file (st w) = Some f /\ too_large f = false /\
            req = analyze_request env f /\
            st w' = setError None (setLoading true (st w)) /\
            events w' = events w
                        ++ [ConsoleLog ("Uploading to: " +:+ backendUrl env);
                            AxiosPost req].
Proof.
  unfold handleAnalyze_start.
  destruct (file (st w)) as [f|] eqn:Hf; [|discriminate].
  destruct (too_large f) eqn:Hs; [discriminate|].
  intros [= <- <-]. exists f. simpl.
  rewrite <- app_assoc. auto.
Qed.

Lemma start_returned_events env w w' :
  handleAnalyze_start env w = Returned w' -> events w' = events w.
Proof.
  unfold handleAnalyze_start.
  destruct (file (st w)) as [f|]; [|by intros [= <-]].
  destruct (too_large f); [by intros [= <-]|discriminate].
Qed.

Lemma posts_app l1 l2 : posts (l1 ++ l2) = posts l1 ++ posts l2.
Proof. unfold posts. apply omap_app. Qed.

Lemma settle_posts o w :
  posts (events (handleAnalyze_settle o w)) = posts (events w).
Proof.
  destruct o; simpl; [done|]. rewrite posts_app. simpl. apply app_nil_r.
Qed.

Lemma settle_loading o w : loading (st (handleAnalyze_settle o w)) = false.
Proof. by destruct o. Qed.


(** ** What one call appends to the trace *)

Lemma handleAnalyze_returned env net w w' :
  handleAnalyze_start env w = Returned w' -> handleAnalyze env net w = w'.
Proof. intros H. unfold handleAnalyze. by rewrite H. Qed.

Lemma handleAnalyze_awaiting env net w w' req :
  handleAnalyze_start env w = Awaiting w' req ->
  handleAnalyze env net w = handleAnalyze_settle (net req) w'.
Proof. intros H. unfold handleAnalyze. by rewrite H. Qed.

Lemma settle_events o w :
  exists tail, events (handleAnalyze_settle o w) = events w ++ tail /\
               posts tail = [].
Proof.
  destruct o as [d|err]; simpl.
  - exists []. by rewrite app_nil_r.
  - by exists [ConsoleError (Some "Analysis Error:") err].
Qed.

Lemma form_get_topic f :
  form_get "topic" (formData f) = Some (TextField "General Teaching").
Proof. reflexivity. Qed.

(** C9. When no file is selected, invoking [handleAnalyze] is a no-op: the
    handler returns at its guard, the trace (and with it the list of
    requests) and all five pieces of state are what they were. The same
    holds for the other copy of the page. *)
Theorem handleAnalyze_without_file_is_noop env net w :
  file (st w) = None ->
  handleAnalyze_start env w = Returned w /\
  handleAnalyze env net w = w /\
  Earlier.handleAnalyze env net w = w.
Proof.
  intros H. pose proof (start_no_file env w H) as Hs.
  split; [done|]. split; [by apply handleAnalyze_returned|].
  unfold Earlier.handleAnalyze, Earlier.handleAnalyze_start. by rewrite H.
Qed.

Lemma handleAnalyze_without_file_is_noop_witness :
  file (st fresh) = None /\
  handleAnalyze_start local_env fresh = Returned fresh /\
  handleAnalyze local_env (answers (Fulfilled degraded)) fresh = fresh /\
  Earlier.handleAnalyze local_env (answers (Fulfilled degraded)) fresh = fresh.
Proof.
  split; [reflexivity|].
  apply (handleAnalyze_without_file_is_noop local_env
           (answers (Fulfilled degraded)) fresh).
  reflexivity.
Defined.

(** C10. For every dispatched analyze request, [loading] is true while the
    request is pending and false once it has settled, whichever way it
    settles: the [finally] block runs after the [try] block and after every
    branch of the [catch] block. *)
Theorem loading_spans_the_request env w w' req :
  handleAnalyze_start env w = Awaiting w' req ->
  loading (st w') = true /\
  (forall o, loading (st (handleAnalyze_settle o w')) = false) /\
  (forall net, loading (st (handleAnalyze env net w)) = false).
Proof.
  intros H. destruct (start_awaiting_inv _ _ _ _ H) as (f & _ & _ & _ & Hst & _).
  split; [by rewrite Hst|]. split.
  - intros o. apply settle_loading.
  - intros net. rewrite (handleAnalyze_awaiting _ net _ _ _ H).
    apply settle_loading.
Qed.

Lemma earlier_settle_events o w :
  exists tail, events (Earlier.handleAnalyze_settle o w) = events w ++ tail /\
               posts tail = [].
Proof.
  destruct o as [d|err]; simpl.
  - exists []. by rewrite app_nil_r.
  - by exists [ConsoleError None err].
Qed.

Lemma handleAnalyze_new_events env net w :
  exists new,
    events (handleAnalyze env net w) = events w ++ new /\
    forall req, req ∈ posts new ->
      url req = backendUrl env +:+ "/analyze" /\
      form_get "topic" (body req) = Some (TextField "General Teaching").
Proof.
  destruct (handleAnalyze_start env w) as [w'|w' req] eqn:Hs.
  - exists []. rewrite (handleAnalyze_returned _ net _ _ Hs), app_nil_r.
    split; [by apply (start_returned_events env)|]. intros req Hin. inversion Hin.
  - rewrite (handleAnalyze_awaiting _ net _ _ _ Hs).
    destruct (start_awaiting_inv _ _ _ _ Hs) as (f & _ & _ & -> & _ & Hev).
    destruct (settle_events (net (analyze_request env f)) w') as (tail & Ht & Hp).
    eexists. split.
    + rewrite Ht, Hev, <- app_assoc. reflexivity.
    + intros req. rewrite posts_app, Hp, app_nil_r. simpl.
      intros Hin%list_elem_of_singleton. subst req.
      split; [reflexivity | apply form_get_topic].
Qed.

Lemma earlier_handleAnalyze_new_events env net w :
  exists new,
    events (Earlier.handleAnalyze env net w) = events w ++ new /\
    forall req, req ∈ posts new ->
      url req = backendUrl env +:+ "/analyze" /\
      form_get "topic" (body req) = Some (TextField "General Teaching").
Proof.
  unfold Earlier.handleAnalyze, Earlier.handleAnalyze_start.
  destruct (file (st w)) as [f|].
  - destruct (earlier_settle_events (net (analyze_request env f))
                (emit (AxiosPost (analyze_request env f))
                   (update (setError None) (update (setLoading true) w))))
      as (tail & Ht & Hp).
    eexists. split.
    + rewrite Ht. simpl. rewrite <- app_assoc. reflexivity.
    + intros req. rewrite posts_app, Hp, app_nil_r. simpl.
      intros Hin%list_elem_of_singleton. subst req.
      split; [reflexivity | apply form_get_topic].
  - exists []. rewrite app_nil_r. split; [done|]. intros req Hin. inversion Hin.
Qed.

(** C6. Every request [handleAnalyze] sends goes to [/analyze] and carries
    a [topic] field; the page has no input for the topic, and the field is
    always the string "General Teaching". This holds for both copies of the
    page. *)
Theorem every_request_carries_the_default_topic env net w :
  (exists new,
     events (handleAnalyze env net w) = events w ++ new /\
     forall req, req ∈ posts new ->
       url req = backendUrl env +:+ "/analyze" /\
       form_get "topic" (body req) = Some (TextField "General Teaching")) /\
  (exists new,
     events (Earlier.handleAnalyze env net w) = events w ++ new /\
     forall req, req ∈ posts new ->
       url req = backendUrl env +:+ "/analyze" /\
       form_get "topic" (body req) = Some (TextField "General Teaching")) /\
  (forall f, file (st w) = Some f -> too_large f = false ->
     posts (events (handleAnalyze env net w))
     = posts (events w) ++ [analyze_request env f]).
Proof.
  split; [apply handleAnalyze_new_events|].
  split; [apply earlier_handleAnalyze_new_events|].
  intros f Hf Hs. unfold handleAnalyze. rewrite (start_dispatch env w f Hf Hs).
  rewrite settle_posts. simpl. rewrite !posts_app. simpl.
  by rewrite app_nil_r.
Qed.

Lemma every_request_carries_the_default_topic_witness :
  file (st chosen) = Some lecture /\ too_large lecture = false /\
  posts (events (handleAnalyze local_env (answers (Fulfilled degraded)) chosen))
  = posts (events chosen) ++ [analyze_request local_env lecture] /\
  form_get "topic" (body (analyze_request local_env lecture))
  = Some (TextField "General Teaching").
Proof.
  assert (Hf : file (st chosen) = Some lecture) by reflexivity.
  assert (Hs : too_large lecture = false) by (vm_compute; reflexivity).
  destruct (every_request_carries_the_default_topic local_env
              (answers (Fulfilled degraded)) chosen) as ((new & Hev & Hall) & _ & Hposts).
  pose proof (Hposts lecture Hf Hs) as Hp.
  split; [exact Hf|]. split; [exact Hs|]. split; [exact Hp|].
  apply (Hall (analyze_request local_env lecture)).
  apply (f_equal posts) in Hev. rewrite posts_app, Hp in Hev.
  apply app_inv_head in Hev. rewrite <- Hev. apply list_elem_of_here.
Defined.

Lemma loading_spans_the_request_witness :
  handleAnalyze_start local_env chosen
  = Awaiting pending (analyze_request local_env lecture) /\
  loading (st pending) = true /\
  (forall o, loading (st (handleAnalyze_settle o pending)) = false) /\
  (forall net, loading (st (handleAnalyze local_env net chosen)) = false).
Proof.
  assert (H : handleAnalyze_start local_env chosen
              = Awaiting pending (analyze_request local_env lecture))
    by (vm_compute; reflexivity).
  split; [exact H|].
  exact (loading_spans_the_request local_env chosen pending
           (analyze_request local_env lecture) H).
Defined.

(** ** The state after a dispatched request has settled *)

Lemma handleAnalyze_dispatched env net w f :
  file (st w) = Some f -> too_large f = false ->
  st (handleAnalyze env net w)
  = match net (analyze_request env f) with
    | Fulfilled d =>
        setLoading false
          (setResult (Some d) (setError None (setLoading true (st w))))
    | Rejected err =>
        setLoading false
          (setError (Some (error_message err))
             (setError None (setLoading true (st w))))
    end.
Proof.
  intros Hf Hs. unfold handleAnalyze. rewrite (start_dispatch env w f Hf Hs).
  by destruct (net (analyze_request env f)).
Qed.



Lemma truthy_opt_truthy s : JS.truthy s = true -> truthy_opt (Some s) = Some s.
Proof. intros H. simpl. by rewrite H. Qed.



(** ** The two lists of the results view *)

Lemma gt_iff a b : JS.gt a b = true <-> (b < a)%Q.
Proof.
  unfold JS.gt. rewrite negb_true_iff, <- not_true_iff_false, Qle_bool_iff.
  split; [apply Qnot_le_lt | apply Qlt_not_le].
Qed.

Lemma imap_strength_no_fallback (l : list string) :
  LiNoStrengths ∉ imap LiStrength l.
Proof. rewrite elem_of_lookup_imap. by intros (i & y & [=] & _). Qed.

Lemma imap_concept_no_fallback (l : list string) (li : Li) :
  li ∈ imap LiConcept l -> li <> LiKeepUp /\ li <> LiSlowDown.
Proof. rewrite elem_of_lookup_imap. by intros (i & y & -> & _). Qed.

Lemma strengths_list_cases p :
  strengths_list p
  = match JS.chain (content_of p) key_strengths with
    | Some l => imap LiStrength l
    | None => [LiNoStrengths]
    end.
Proof. unfold strengths_list. by destruct (JS.chain (content_of p) key_strengths). Qed.

Lemma concepts_list_cases p :
  concepts_list p
  = match JS.chain (content_of p) missing_concepts with
    | Some l => imap LiConcept l
    | None => [LiKeepUp]
    end.
Proof. unfold concepts_list. by destruct (JS.chain (content_of p) missing_concepts). Qed.

Lemma pace_advisory_cases p :
  pace_advisory p = [] \/ pace_advisory p = [LiSlowDown].
Proof. unfold pace_advisory. destruct (JS.gt _ _); auto. Qed.

Lemma slow_down_not_in_concepts p : LiSlowDown ∉ concepts_list p.
Proof.
  rewrite concepts_list_cases.
  destruct (JS.chain (content_of p) missing_concepts) as [l|].
  - intros H. by destruct (imap_concept_no_fallback l _ H).
  - by intros [=]%list_elem_of_singleton.
Qed.

Lemma keep_up_not_in_advisory p : LiKeepUp ∉ pace_advisory p.
Proof.
  destruct (pace_advisory_cases p) as [-> | ->].
  - apply not_elem_of_nil.
  - by intros [=]%list_elem_of_singleton.
Qed.

(** C8. The fallback item of a list is rendered exactly when the list is
    absent from the response ([key_strengths], resp. [missing_concepts],
    read through [pipelines?.content?.]). A list that is present is mapped
    item by item, so an empty list renders neither items nor the fallback:
    the strengths list is empty, and the insights list holds at most the
    pace advisory. *)
Theorem fallback_items_only_for_absent_lists r :
  (LiNoStrengths ∈ strengths (render_results r)
   <-> JS.chain (content_of (pipelines r)) key_strengths = None) /\
  (LiKeepUp ∈ insights (render_results r)
   <-> JS.chain (content_of (pipelines r)) missing_concepts = None) /\
  (forall l, JS.chain (content_of (pipelines r)) key_strengths = Some l ->
     strengths (render_results r) = imap LiStrength l) /\
  (forall l, JS.chain (content_of (pipelines r)) missing_concepts = Some l ->
     insights (render_results r)
     = imap LiConcept l ++ pace_advisory (pipelines r)) /\
  (JS.chain (content_of (pipelines r)) key_strengths = Some [] ->
     strengths (render_results r) = []) /\
  (JS.chain (content_of (pipelines r)) missing_concepts = Some [] ->
     insights (render_results r) = pace_advisory (pipelines r)).
Proof.
  simpl. rewrite strengths_list_cases, concepts_list_cases.
  split; [|split; [|split; [|split; [|split]]]].
  - destruct (JS.chain (content_of (pipelines r)) key_strengths) as [ks|].
    + split; [by intros ?%imap_strength_no_fallback | discriminate].
    + split; [done | intros _; apply list_elem_of_here].
  - destruct (JS.chain (content_of (pipelines r)) missing_concepts) as [mc|].
    + split; [|discriminate]. rewrite elem_of_app. intros [H|H].
      * by destruct (imap_concept_no_fallback _ _ H).
      * by apply keep_up_not_in_advisory in H.
    + split; [done|]. intros _. apply elem_of_app. left. apply list_elem_of_here.
  - intros l ->. reflexivity.
  - intros l ->. reflexivity.
  - intros ->. reflexivity.
  - intros ->. reflexivity.
Qed.

Lemma fallback_items_only_for_absent_lists_witness :
  JS.chain (content_of (pipelines degraded)) key_strengths = None /\
  JS.chain (content_of (pipelines degraded)) missing_concepts = Some [] /\
  LiNoStrengths ∈ strengths (render_results degraded) /\
  insights (render_results degraded) = pace_advisory (pipelines degraded).
Proof.
  destruct (fallback_items_only_for_absent_lists degraded)
    as (Hs & _ & _ & _ & _ & Hm).
  split; [reflexivity|]. split; [reflexivity|]. split.
  - apply Hs. reflexivity.
  - apply Hm. reflexivity.
Defined.

(** ** The pace advisory *)

Lemma slow_down_iff r :
  LiSlowDown ∈ insights (render_results r)
  <-> (150 < JS.nullish (JS.chain (audio_details_of (pipelines r)) pace_bpm) 0)%Q.
Proof.
  simpl. rewrite elem_of_app, <- gt_iff. unfold pace_advisory.
  destruct (JS.gt _ _); split.
  - done.
  - intros _. right. apply list_elem_of_here.
  - intros [H|H]; [by apply slow_down_not_in_concepts in H | inversion H].
  - discriminate.
Qed.

(** C3, as the code has it. The advisory is rendered exactly when
    [pace_bpm] (0 when absent) is strictly above 150: in the scenario with
    a pace of 150 it is not rendered, with a pace of 151 it is. *)
Theorem pace_advisory_only_above_150 :
  (forall r,
     LiSlowDown ∈ insights (render_results r)
     <-> (150 < JS.nullish (JS.chain (audio_details_of (pipelines r)) pace_bpm) 0)%Q) /\
  (LiSlowDown ∉ insights (render_results (scenario 150%Q))) /\
  LiSlowDown ∈ insights (render_results (scenario 151%Q)).
Proof.
  split; [exact slow_down_iff|]. split.
  - rewrite slow_down_iff. simpl. apply Qlt_irrefl.
  - rewrite slow_down_iff. simpl. reflexivity.
Qed.

(** C3, as the claim has it: the scenario with a pace of exactly 150 is
    said to emit the advisory; the rendered insights list is empty. *)
Lemma scenario_at_150_emits_no_advisory :
  insights (render_results (scenario 150%Q)) = [] /\
  (LiSlowDown ∉ insights (render_results (scenario 150%Q))).
Proof.
  assert (H : insights (render_results (scenario 150%Q)) = [])
    by (vm_compute; reflexivity).
  split; [exact H|]. rewrite H. apply not_elem_of_nil.
Qed.

(** ** The pacing card *)

(** C2, on the code. The card titled "Pacing (BPM)" is the page's only
    mapping of [pace_bpm] to a score, and it applies no normalization: it
    shows the rounded pace capped at 160. On the band 100-140 BPM it shows
    a number between 100 and 140, never 10 (120 at 120 BPM, with 1200 fed
    to the progress bar); at 60 BPM it shows 60 and at 180 BPM 160, not 0;
    and it rises from 150 to 160 BPM. It does not read [silence_ratio]. *)
Theorem pacing_card_is_not_normalized :
  (forall p pace,
     JS.chain (audio_details_of p) pace_bpm = Some pace ->
     (100 <= pace)%Q -> (pace <= 140)%Q ->
     (100 <= pacing_card_score p)%Q /\ (pacing_card_score p <= 140)%Q) /\
  pacing_card_score (pipelines (scenario 120%Q)) = 120%Q /\
  progress (MetricCard "Pacing (BPM)"
              (pacing_card_score (pipelines (scenario 120%Q))))
  = (120 * 10)%Q /\
  pacing_card_score (pipelines (scenario 60%Q)) = 60%Q /\
  pacing_card_score (pipelines (scenario 180%Q)) = 160%Q /\
  (pacing_card_score (pipelines (scenario 150%Q))
   < pacing_card_score (pipelines (scenario 160%Q)))%Q /\
  (forall v c score pace s1 s2,
     pacing_card_score
       (Some {| visual := v;
                audio := Some {| prosody_score := score;
                                 audio_details :=
                                   Some {| pace_bpm := pace;
                                           silence_ratio := s1 |} |};
                content := c |})
     = pacing_card_score
         (Some {| visual := v;
                  audio := Some {| prosody_score := score;
                                   audio_details :=
                                     Some {| pace_bpm := pace;
                                             silence_ratio := s2 |} |};
                  content := c |})).
Proof.
  split; [|repeat split].
  intros p pace Hp Hlo Hhi. unfold pacing_card_score, JS.Math_min, JS.Math_round.
  rewrite Hp. simpl JS.nullish.
  assert (H1 : (Qfloor (inject_Z 100) <= Qfloor (pace + (1 # 2)))%Z)
    by (apply Qfloor_resp_le; change (inject_Z 100) with 100%Q; lra).
  assert (H2 : (Qfloor (pace + (1 # 2)) <= Qfloor (281 # 2))%Z)
    by (apply Qfloor_resp_le; lra).
  rewrite Qfloor_Z in H1. change (Qfloor (281 # 2)) with 140%Z in H2.
  change 100%Q with (inject_Z 100). change 140%Q with (inject_Z 140).
  rewrite <- !Zle_Qle. lia.
Qed.

Lemma pacing_card_is_not_normalized_witness :
  JS.chain (audio_details_of (pipelines (scenario 120%Q))) pace_bpm = Some 120%Q /\
  (100 <= 120)%Q /\ (120 <= 140)%Q /\
  (100 <= pacing_card_score (pipelines (scenario 120%Q)))%Q /\
  (pacing_card_score (pipelines (scenario 120%Q)) <= 140)%Q.
Proof.
  assert (H1 : JS.chain (audio_details_of (pipelines (scenario 120%Q))) pace_bpm
               = Some 120%Q) by reflexivity.
  assert (H2 : (100 <= 120)%Q) by (vm_compute; discriminate).
  assert (H3 : (120 <= 140)%Q) by (vm_compute; discriminate).
  split; [exact H1|]. split; [exact H2|]. split; [exact H3|].
  exact (proj1 pacing_card_is_not_normalized (pipelines (scenario 120%Q))
           120%Q H1 H2 H3).
Defined.

(** * Properties of the scoring core *)

Section CoreFacts.
Import Core.

Variable cfg : NormalizerConfig.

(** ** What the Normalizer records *)

Lemma normalize_unsuccessful o : unsuccessful o = true -> normalize cfg o = None.
Proof. by destruct o. Qed.

Lemma normalize_None o : normalize cfg o = None <-> unsuccessful o = true.
Proof. by destruct o. Qed.

Lemma subscores_lookup outcomes k :
  subscores (normalize_all cfg outcomes) !! k = normalize cfg (outcomes k).
Proof.
  unfold normalize_all, all_kinds, record_outcome. simpl.
  destruct (normalize cfg (outcomes Content)) eqn:Hc;
    destruct (normalize cfg (outcomes Acoustic)) eqn:Ha;
    destruct (normalize cfg (outcomes Visual)) eqn:Hv;
    destruct k; simpl; by simplify_map_eq.
Qed.

Lemma missing_iff outcomes k :
  k ∈ missing (normalize_all cfg outcomes) <-> normalize cfg (outcomes k) = None.
Proof.
  unfold normalize_all, all_kinds, record_outcome. simpl.
  destruct (normalize cfg (outcomes Content)) eqn:Hc;
    destruct (normalize cfg (outcomes Acoustic)) eqn:Ha;
    destruct (normalize cfg (outcomes Visual)) eqn:Hv;
    destruct k; simpl; split; intros H; try done; try set_solver.
Qed.

Lemma present_entry outcomes k :
  (if decide (k ∈ missing (normalize_all cfg outcomes)) then None
   else option_map (pair k) (subscores (normalize_all cfg outcomes) !! k))
  = option_map (pair k) (normalize cfg (outcomes k)).
Proof.
  rewrite subscores_lookup.
  destruct (decide (k ∈ missing (normalize_all cfg outcomes))) as [H|H]; [|done].
  apply missing_iff in H. by rewrite H.
Qed.

(** The Aggregator sees exactly the pipelines that produced a sub-score. *)
Lemma present_normalize_all outcomes :
  present (normalize_all cfg outcomes)
  = omap (fun k => option_map (pair k) (normalize cfg (outcomes k))) all_kinds.
Proof.
  unfold present. apply list_omap_ext, Forall2_same_length_lookup_2; [done|].
  intros i k k' Hk Hk'. rewrite Hk in Hk'. injection Hk' as <-.
  apply present_entry.
Qed.

(** ** What the Aggregator computes *)

Lemma present_one_missing outcomes k s1 s2 :
  normalize cfg (outcomes k) = None ->
  normalize cfg (outcomes (others k).1) = Some s1 ->
  normalize cfg (outcomes (others k).2) = Some s2 ->
  present (normalize_all cfg outcomes)
  = [((others k).1, s1); ((others k).2, s2)].
Proof.
  intros Hk H1 H2. rewrite present_normalize_all. unfold all_kinds.
  destruct k; simpl in *; rewrite Hk, H1, H2; reflexivity.
Qed.

Lemma weighted_mean_two (w : Weights) a b s1 s2 :
  (weighted_sum w [(a, s1); (b, s2)] / weight_sum w [(a, s1); (b, s2)]
   == (w a * s1 + w b * s2) / (w a + w b))%Q.
Proof.
  simpl.
  assert (Hn : (w a * s1 + (w b * s2 + 0) == w a * s1 + w b * s2)%Q) by ring.
  assert (Hd : (w a + (w b + 0) == w a + w b)%Q) by ring.
  by rewrite Hn, Hd.
Qed.

Lemma one_missing_inv outcomes k :
  missing (normalize_all cfg outcomes) = {[k]} ->
  normalize cfg (outcomes k) = None /\
  exists s1 s2, normalize cfg (outcomes (others k).1) = Some s1 /\
                normalize cfg (outcomes (others k).2) = Some s2.
Proof.
  intros Hm.
  assert (Hin : forall k', normalize cfg (outcomes k') = None <-> k' = k).
  { intros k'. by rewrite <- missing_iff, Hm, elem_of_singleton. }
  split; [by apply Hin|].
  destruct (normalize cfg (outcomes (others k).1)) as [s1|] eqn:H1;
    [|apply Hin in H1; by destruct k].
  destruct (normalize cfg (outcomes (others k).2)) as [s2|] eqn:H2;
    [|apply Hin in H2; by destruct k].
  eauto.
Qed.

Lemma aggregate_one_missing (w : Weights) outcomes k :
  missing (normalize_all cfg outcomes) = {[k]} ->
  exists s1 s2 overall,
    normalize cfg (outcomes (others k).1) = Some s1 /\
    normalize cfg (outcomes (others k).2) = Some s2 /\
    aggregate w (normalize_all cfg outcomes) = inr overall /\
    (overall == (w (others k).1 * s1 + w (others k).2 * s2)
                / (w (others k).1 + w (others k).2))%Q.
Proof.
  intros Hm. destruct (one_missing_inv outcomes k Hm) as (Hk & s1 & s2 & H1 & H2).
  exists s1, s2. eexists. split; [exact H1|]. split; [exact H2|].
  unfold aggregate. rewrite (present_one_missing outcomes k s1 s2 Hk H1 H2).
  split; [reflexivity|]. apply weighted_mean_two.
Qed.

(** C4. When exactly one pipeline is missing, the other two have
    sub-scores and the overall score is their weighted mean under the
    renormalized weights, [(w1 * s1 + w2 * s2) / (w1 + w2)], for weights
    whose present total is positive; with the default weights and the
    visual pipeline missing, it is the simple average of the content and
    acoustic sub-scores. *)
Theorem one_missing_pipeline_renormalizes :
  (forall (w : Weights) outcomes k,
     missing (normalize_all cfg outcomes) = {[k]} ->
     (0 < w (others k).1 + w (others k).2)%Q ->
     exists s1 s2 overall,
       normalize cfg (outcomes (others k).1) = Some s1 /\
       normalize cfg (outcomes (others k).2) = Some s2 /\
       aggregate w (normalize_all cfg outcomes) = inr overall /\
       (overall == (w (others k).1 * s1 + w (others k).2 * s2)
                   / (w (others k).1 + w (others k).2))%Q) /\
  (forall outcomes,
     missing (normalize_all cfg outcomes) = {[Visual]} ->
     exists sc sa overall,
       normalize cfg (outcomes Content) = Some sc /\
       normalize cfg (outcomes Acoustic) = Some sa /\
       aggregate default_weights (normalize_all cfg outcomes) = inr overall /\
       (overall == (sc + sa) / 2)%Q).
Proof.
  split.
  - intros w outcomes k Hm _. by apply aggregate_one_missing.
  - intros outcomes Hm.
    destruct (aggregate_one_missing default_weights outcomes Visual Hm)
      as (sc & sa & overall & Hc & Ha & Hagg & Heq).
    exists sc, sa, overall. repeat (split; [assumption|]).
    rewrite Heq. simpl. field.
Qed.

Lemma weighted_sum_ext (w w' : Weights) ps :
  (forall p, p ∈ ps -> w' p.1 = w p.1) -> weighted_sum w' ps = weighted_sum w ps.
Proof.
  induction ps as [|p ps IH]; intros H; [done|]. simpl.
  rewrite (H p), IH; [done| |apply list_elem_of_here].
  intros q Hq. apply H. by apply list_elem_of_further.
Qed.

Lemma weight_sum_ext (w w' : Weights) ps :
  (forall p, p ∈ ps -> w' p.1 = w p.1) -> weight_sum w' ps = weight_sum w ps.
Proof.
  induction ps as [|p ps IH]; intros H; [done|]. simpl.
  rewrite (H p), IH; [done| |apply list_elem_of_here].
  intros q Hq. apply H. by apply list_elem_of_further.
Qed.

(** A pipeline without a sub-score is not among those the Aggregator
    sums over. *)
Lemma present_kinds outcomes p :
  p ∈ present (normalize_all cfg outcomes) ->
  normalize cfg (outcomes p.1) = Some p.2.
Proof.
  rewrite present_normalize_all, list_elem_of_omap. intros (k & _ & Hk).
  destruct (normalize cfg (outcomes k)) as [s|] eqn:Hs; [|discriminate].
  injection Hk as <-. exact Hs.
Qed.

Lemma unsuccessful_not_present outcomes k :
  unsuccessful (outcomes k) = true ->
  k ∉ (present (normalize_all cfg outcomes)).*1.
Proof.
  intros Hu. rewrite list_elem_of_fmap. intros (p & -> & Hp).
  apply present_kinds in Hp. by rewrite (normalize_unsuccessful _ Hu) in Hp.
Qed.

(** The weight configured for a missing pipeline has no influence. *)
Lemma aggregate_ignores_missing_weight (w w' : Weights) outcomes k :
  unsuccessful (outcomes k) = true ->
  (forall k', k' <> k -> w' k' = w k') ->
  aggregate w' (normalize_all cfg outcomes) = aggregate w (normalize_all cfg outcomes).
Proof.
  intros Hu Hw. unfold aggregate.
  assert (Hps : forall p, p ∈ present (normalize_all cfg outcomes) -> w' p.1 = w p.1).
  { intros p Hp. apply Hw. intros Heq.
    apply (unsuccessful_not_present outcomes k Hu).
    apply list_elem_of_fmap. exists p. by split. }
  destruct (present (normalize_all cfg outcomes)) as [|p ps] eqn:E; [done|].
  by rewrite (weighted_sum_ext w w' _ Hps), (weight_sum_ext w w' _ Hps).
Qed.

(** With one pipeline missing and the other two agreeing on a score, the
    overall score is that score: the missing one pulls nothing towards 0. *)
Lemma aggregate_of_equal_scores (w : Weights) outcomes k s1 s2 :
  unsuccessful (outcomes k) = true ->
  normalize cfg (outcomes (others k).1) = Some s1 ->
  normalize cfg (outcomes (others k).2) = Some s2 ->
  (s1 == s2)%Q ->
  (0 < w (others k).1 + w (others k).2)%Q ->
  exists overall, aggregate w (normalize_all cfg outcomes) = inr overall /\
                  (overall == s1)%Q.
Proof.
  intros Hu H1 H2 Heq Hpos. eexists. unfold aggregate.
  rewrite (present_one_missing outcomes k s1 s2 (normalize_unsuccessful _ Hu) H1 H2).
  split; [reflexivity|]. rewrite weighted_mean_two, <- Heq. field. lra.
Qed.

Lemma card_score_nullish fld p :
  card_score (card_index fld) p = Some (JS.nullish (read_field fld p) 0%Q).
Proof. by destruct fld. Qed.

(** C1. A pipeline that settled as [Failed] or [TimedOut] has no sub-score:
    the Normalizer returns none for it, stores none under its kind and adds
    the kind to the missing set; the Aggregator does not sum over it, the
    weight configured for it does not enter the overall score, and when the
    other two pipelines agree on a score the overall score is that score.
    In the page, the response is stored as received, and an absent field
    turns into 0 only where a metric card reads it through [?? 0]. *)
Theorem absent_subscore_is_not_a_zero :
  (forall (w : Weights) outcomes k,
     unsuccessful (outcomes k) = true ->
     normalize cfg (outcomes k) = None /\
     subscores (normalize_all cfg outcomes) !! k = None /\
     k ∈ missing (normalize_all cfg outcomes) /\
     (k ∉ (present (normalize_all cfg outcomes)).*1) /\
     (forall w' : Weights, (forall k', k' <> k -> w' k' = w k') ->
        aggregate w' (normalize_all cfg outcomes)
        = aggregate w (normalize_all cfg outcomes)) /\
     (forall s1 s2,
        normalize cfg (outcomes (others k).1) = Some s1 ->
        normalize cfg (outcomes (others k).2) = Some s2 ->
        (s1 == s2)%Q ->
        (0 < w (others k).1 + w (others k).2)%Q ->
        exists overall, aggregate w (normalize_all cfg outcomes) = inr overall /\
                        (overall == s1)%Q)) /\
  (forall env net w f d,
     file (st w) = Some f -> too_large f = false ->
     net (analyze_request env f) = Fulfilled d ->
     result (st (handleAnalyze env net w)) = Some d) /\
  (forall fld p,
     card_score (card_index fld) p = Some (JS.nullish (read_field fld p) 0%Q)) /\
  (forall fld p, read_field fld p = None ->
     card_score (card_index fld) p = Some 0%Q) /\
  (forall fld p v, read_field fld p = Some v ->
     card_score (card_index fld) p = Some v).
Proof.
  split; [|split; [|split; [|split]]].
  - intros w outcomes k Hu.
    pose proof (normalize_unsuccessful _ Hu) as Hn.
    split; [exact Hn|]. split; [by rewrite subscores_lookup|].
    split; [by apply missing_iff|].
    split; [by apply unsuccessful_not_present|]. split.
    + intros w' Hw. by apply (aggregate_ignores_missing_weight w w' outcomes k).
    + intros s1 s2 H1 H2 Heq Hpos.
      by apply (aggregate_of_equal_scores w outcomes k s1 s2).
  - intros env net w f d Hf Hs Hnet.
    rewrite (handleAnalyze_dispatched env net w f Hf Hs), Hnet. reflexivity.
  - exact card_score_nullish.
  - intros fld p H. by rewrite card_score_nullish, H.
  - intros fld p v H. by rewrite card_score_nullish, H.
Qed.

(** C5. An oversized payload is turned away before any analysis starts.
    At the boundary, a payload above the limit is answered with the
    size-limit error, status 413, and no pipeline is dispatched. In the
    page, a file above [MAX_FILE_SIZE_MB] (30 * 2^20 bytes) never leaves
    the browser: the handler sets the size message and returns, the trace
    gains no request, and [loading] and [result] keep their values; and an
    answer with status 413 ends in the server-limit message and no
    result. *)
Theorem oversized_payload_is_never_analyzed :
  (forall limit (w : Weights) run payload_size topic,
     (limit < payload_size)%N ->
     analyze limit cfg w run payload_size topic = ([], inl PayloadTooLarge) /\
     status_code PayloadTooLarge = 413%N) /\
  (forall env net w f,
     file (st w) = Some f -> (MAX_FILE_SIZE_MB * 1048576 < size f)%N ->
     handleAnalyze env net w
     = update (setError (Some (too_large_message f))) w /\
     posts (events (handleAnalyze env net w)) = posts (events w) /\
     loading (st (handleAnalyze env net w)) = loading (st w) /\
     result (st (handleAnalyze env net w)) = result (st w)) /\
  (forall env net w f err r,
     file (st w) = Some f -> too_large f = false ->
     net (analyze_request env f) = Rejected err ->
     response err = Some r -> status r = 413%N ->
     error (st (handleAnalyze env net w)) = Some msg_413 /\
     result (st (handleAnalyze env net w)) = result (st w)).
Proof.
  split; [|split].
  - intros limit w run payload_size topic Hlim. split; [|reflexivity].
    unfold analyze. apply N.ltb_lt in Hlim. by rewrite Hlim.
  - intros env net w f Hf Hsize.
    assert (Hl : too_large f = true) by (apply too_large_iff; exact Hsize).
    rewrite (handleAnalyze_returned env net w _ (start_too_large env w f Hf Hl)).
    done.
  - intros env net w f err r Hf Hs Hnet Hr H413.
    rewrite (handleAnalyze_dispatched env net w f Hf Hs), Hnet. simpl.
    unfold error_message. rewrite Hr, H413. done.
Qed.

End CoreFacts.

(** ** The core on sample outcomes *)

Import Core.

Lemma one_missing_pipeline_renormalizes_witness :
  missing (normalize_all sample_cfg visual_timed_out) = {[Visual]} /\
  (0 < default_weights (others Visual).1 + default_weights (others Visual).2)%Q /\
  exists overall,
    aggregate default_weights (normalize_all sample_cfg visual_timed_out)
    = inr overall /\
    (overall == 9)%Q.
Proof.
  assert (Hm : missing (normalize_all sample_cfg visual_timed_out) = {[Visual]})
    by (vm_compute; reflexivity).
  assert (Hw : (0 < default_weights (others Visual).1
                    + default_weights (others Visual).2)%Q)
    by (vm_compute; reflexivity).
  split; [exact Hm|]. split; [exact Hw|].
  destruct (proj1 (one_missing_pipeline_renormalizes sample_cfg)
              default_weights visual_timed_out Visual Hm Hw)
    as (s1 & s2 & overall & H1 & H2 & Hagg & Heq).
  exists overall. split; [exact Hagg|].
  injection H1 as <-. injection H2 as <-.
  rewrite Heq. vm_compute. reflexivity.
Defined.

Lemma absent_subscore_is_not_a_zero_witness :
  unsuccessful (acoustic_failed Acoustic) = true /\
  subscores (normalize_all sample_cfg acoustic_failed) !! Acoustic = None /\
  Acoustic ∈ missing (normalize_all sample_cfg acoustic_failed) /\
  (exists overall,
     aggregate default_weights (normalize_all sample_cfg acoustic_failed)
     = inr overall /\ (overall == 8)%Q) /\
  read_field ProsodyScore (pipelines degraded) = None /\
  card_score (card_index ProsodyScore) (pipelines degraded) = Some 0%Q.
Proof.
  destruct (absent_subscore_is_not_a_zero sample_cfg)
    as (Hcore & _ & _ & Hcard & _).
  assert (Hu : unsuccessful (acoustic_failed Acoustic) = true) by reflexivity.
  destruct (Hcore default_weights acoustic_failed Acoustic Hu)
    as (_ & Hsub & Hmiss & _ & _ & Heq).
  split; [exact Hu|]. split; [exact Hsub|]. split; [exact Hmiss|].
  split.
  - destruct (Heq _ _ eq_refl eq_refl) as (overall & Hagg & Hov);
      [vm_compute; reflexivity | vm_compute; reflexivity |].
    exists overall. split; [exact Hagg|]. rewrite Hov. vm_compute. reflexivity.
  - split; [reflexivity|]. apply Hcard. reflexivity.
Defined.

Lemma oversized_payload_is_never_analyzed_witness :
  (33554432 < size long_lecture)%N /\
  analyze 33554432 sample_cfg default_weights (fun _ _ => visual_timed_out)
    (size long_lecture) None
  = ([], inl PayloadTooLarge) /\
  file (st chosen_long) = Some long_lecture /\
  (MAX_FILE_SIZE_MB * 1048576 < size long_lecture)%N /\
  posts (events (handleAnalyze local_env (answers (Fulfilled degraded)) chosen_long))
  = posts (events chosen_long) /\
  error (st (handleAnalyze local_env (answers (Rejected (http_error 413 None))) chosen))
  = Some msg_413.
Proof.
  destruct (oversized_payload_is_never_analyzed sample_cfg)
    as (Hserver & Hclient & H413).
  assert (H1 : (33554432 < size long_lecture)%N) by (vm_compute; reflexivity).
  assert (H2 : file (st chosen_long) = Some long_lecture) by reflexivity.
  assert (H3 : (MAX_FILE_SIZE_MB * 1048576 < size long_lecture)%N)
    by (vm_compute; reflexivity).
  split; [exact H1|]. split; [apply Hserver; exact H1|].
  split; [exact H2|]. split; [exact H3|]. split.
  - apply (Hclient local_env (answers (Fulfilled degraded)) chosen_long
             long_lecture H2 H3).
  - apply (H413 local_env (answers (Rejected (http_error 413 None))) chosen
             lecture (http_error 413 None)
             {| status := 413; data := Some {| detail := None |} |});
      vm_compute; reflexivity.
Defined.

(** * The page in use *)

Lemma has_dropzone_inv s : has_dropzone (Home s) = true -> result s = None.
Proof. unfold Home. by destruct (result s). Qed.

Lemma has_analyze_another_inv s :
  has_analyze_another (Home s) = true -> result s <> None.
Proof. unfold Home. by destruct (result s). Qed.

Lemma analyze_enabled_inv s :
  analyze_enabled (Home s) = true ->
  result s = None /\ loading s = false /\ exists f, file s = Some f.
Proof.
  unfold Home. destruct (result s); [discriminate|].
  destruct (file s) as [f|]; [|discriminate]. simpl.
  intros H%negb_true_iff. eauto.
Qed.

Lemma session_inv_opened url env : session_inv url env opened.
Proof.
  repeat split; try done.
  - by left.
  - intros req H. inversion H.
Qed.

Lemma act_preserves url env a s s' :
  session_inv url env s -> act url env a s = Some s' -> session_inv url env s'.
Proof.
  intros (Hfl & Hre & Hpv & Hps) Hact. destruct a as [files| |o|]; simpl in Hact.
  - (* Drop *)
    destruct (has_dropzone (Home (st (page s)))) eqn:Hd; [|discriminate].
    apply has_dropzone_inv in Hd. injection Hact as <-.
    destruct files as [|f rest]; (split; [|split; [|split]]); simpl.
    + exact Hfl.
    + exact Hre.
    + discriminate.
    + exact Hps.
    + destruct Hfl as [[Hin Hl]|(req & Hin & Hl & _ & _)]; [by left|].
      right. by exists req.
    + done.
    + by intros g [= <-].
    + exact Hps.
  - (* ClickAnalyze *)
    destruct (analyze_enabled (Home (st (page s)))) eqn:He; [|discriminate].
    apply analyze_enabled_inv in He as (Hr & Hl & f & Hf).
    assert (Hin : in_flight s = []).
    { destruct Hfl as [[Hin _]|(req & _ & Hl' & _)]; [done|congruence]. }
    destruct (too_large f) eqn:Hs.
    + rewrite (start_too_large env _ f Hf Hs) in Hact. injection Hact as <-.
      (split; [|split; [|split]]); simpl.
      * by left.
      * intros H. by rewrite Hr in H.
      * exact Hpv.
      * exact Hps.
    + rewrite (start_dispatch env _ f Hf Hs) in Hact. injection Hact as <-.
      (split; [|split; [|split]]); simpl.
      * right. exists (analyze_request env f). by rewrite Hin.
      * intros H. by rewrite Hr in H.
      * exact Hpv.
      * intros req. rewrite !posts_app. simpl. rewrite app_nil_r, elem_of_app.
        intros [H|H%list_elem_of_singleton]; [by apply Hps|].
        exists f. split; [done|]. by apply too_large_false_iff.
  - (* Answer *)
    destruct (in_flight s) as [|r rest] eqn:Hin; [discriminate|].
    injection Hact as <-.
    destruct Hfl as [[? _]|(req & [= -> ->] & Hl & Hr & He)]; [discriminate|].
    split; [|split; [|split]].
    + left. split; [done|]. apply settle_loading.
    + destruct o as [d|err]; simpl; [done|]. intros H. by rewrite Hr in H.
    + intros f. destruct o; simpl; apply Hpv.
    + intros q. cbn [page]. rewrite settle_posts. apply Hps.
  - (* ClickAnalyzeAnother *)
    destruct (has_analyze_another (Home (st (page s)))) eqn:Ha; [|discriminate].
    apply has_analyze_another_inv in Ha. injection Hact as <-.
    (split; [|split; [|split]]); simpl.
    + destruct Hfl as [[Hin Hl]|(req & _ & _ & Hr & _)]; [by left|done].
    + done.
    + discriminate.
    + exact Hps.
Qed.

Lemma run_preserves url env acts s s' :
  session_inv url env s -> run url env acts s = Some s' -> session_inv url env s'.
Proof.
  revert s. induction acts as [|a acts IH]; intros s Hinv; simpl.
  - by intros [= <-].
  - destruct (act url env a s) as [s1|] eqn:Ha; [|discriminate].
    apply IH. by apply (act_preserves url env a s).
Qed.

Lemma reachable_inv url env acts s :
  run url env acts opened = Some s -> session_inv url env s.
Proof. apply run_preserves, session_inv_opened. Qed.

(** X1. However the page is used, at most one analyze request is in
    flight; [loading] is true exactly while one is, and while one is the
    Analyze button cannot be clicked. *)
Theorem at_most_one_request_in_flight url env acts s :
  run url env acts opened = Some s ->
  length (in_flight s) <= 1 /\
  (loading (st (page s)) = true <-> in_flight s <> []) /\
  (in_flight s <> [] -> analyze_enabled (Home (st (page s))) = false).
Proof.
  intros Hrun. destruct (reachable_inv url env acts s Hrun) as (Hfl & _).
  destruct Hfl as [[Hin Hl]|(req & Hin & Hl & Hr & _)].
  - rewrite Hin, Hl. split; [simpl; lia|]. split; [|done].
    split; [discriminate|done].
  - rewrite Hin, Hl. split; [simpl; lia|]. split; [done|].
    intros _. unfold Home. rewrite Hr.
    destruct (file (st (page s))); simpl; [|done]. by rewrite Hl.
Qed.

Lemma at_most_one_request_in_flight_witness :
  exists s,
    run blob local_env pending_session opened = Some s /\
    in_flight s = [analyze_request local_env lecture] /\
    length (in_flight s) <= 1 /\
    (loading (st (page s)) = true <-> in_flight s <> []) /\
    (in_flight s <> [] -> analyze_enabled (Home (st (page s))) = false).
Proof.
  eexists. split; [vm_compute; reflexivity|]. split; [reflexivity|].
  apply (at_most_one_request_in_flight blob local_env pending_session).
  vm_compute. reflexivity.
Defined.

(** X2. However the page is used, a result and an error are never held
    together: whenever a result is set, the error is null, [loading] is
    false and no request is in flight. *)
Theorem result_and_error_never_together url env acts s :
  run url env acts opened = Some s ->
  result (st (page s)) <> None ->
  error (st (page s)) = None /\ loading (st (page s)) = false /\
  in_flight s = [].
Proof.
  intros Hrun Hres.
  destruct (reachable_inv url env acts s Hrun) as (Hfl & Hre & _).
  split; [by apply Hre|].
  destruct Hfl as [[Hin Hl]|(req & _ & _ & Hr & _)]; [done|].
  by rewrite Hr in Hres.
Qed.

Lemma result_and_error_never_together_witness :
  exists s,
    run blob local_env
      [Drop [lecture]; ClickAnalyze; Answer (Rejected (http_error 503 None));
       ClickAnalyze; Answer (Fulfilled degraded)] opened = Some s /\
    result (st (page s)) <> None /\
    error (st (page s)) = None /\ loading (st (page s)) = false /\
    in_flight s = [].
Proof.
  eexists. split; [vm_compute; reflexivity|]. split; [discriminate|].
  apply (result_and_error_never_together blob local_env
           [Drop [lecture]; ClickAnalyze; Answer (Rejected (http_error 503 None));
            ClickAnalyze; Answer (Fulfilled degraded)]).
  - vm_compute. reflexivity.
  - discriminate.
Defined.

(** X3. However the page is used, every request in its trace was built
    for a file of at most 30 * 2^20 = 31457280 bytes: a larger file is
    never posted. *)
Theorem no_oversized_file_is_ever_posted url env acts s req :
  run url env acts opened = Some s ->
  req ∈ posts (events (page s)) ->
  exists f, req = analyze_request env f /\ (size f <= 31457280)%N.
Proof.
  intros Hrun. destruct (reachable_inv url env acts s Hrun) as (_ & _ & _ & Hps).
  apply Hps.
Qed.

Lemma no_oversized_file_is_ever_posted_witness :
  exists s,
    run blob local_env sample_session opened = Some s /\
    analyze_request local_env lecture ∈ posts (events (page s)) /\
    exists f, analyze_request local_env lecture = analyze_request local_env f /\
              (size f <= 31457280)%N.
Proof.
  eexists. split; [vm_compute; reflexivity|].
  assert (Hin : analyze_request local_env lecture
                ∈ [analyze_request local_env lecture;
                   analyze_request local_env lecture])
    by apply list_elem_of_here.
  split; [exact Hin|].
  apply (no_oversized_file_is_ever_posted blob local_env sample_session _ _
           ltac:(vm_compute; reflexivity)).
  exact Hin.
Defined.

(** X4. However the page is used, the preview belongs to the chosen file:
    whenever a file is held, [previewUrl] is the object URL created for
    that very file, and the panel under the dropzone shows that file's
    name. *)
Theorem preview_belongs_to_chosen_file url env acts s :
  run url env acts opened = Some s ->
  (forall f, file (st (page s)) = Some f ->
     previewUrl (st (page s)) = Some (url f)) /\
  (forall panel, Home (st (page s)) = Upload (Some panel) ->
     exists f, file (st (page s)) = Some f /\ file_name panel = name f /\
               preview panel = truthy_opt (Some (url f))).
Proof.
  intros Hrun. destruct (reachable_inv url env acts s Hrun) as (_ & _ & Hpv & _).
  split; [exact Hpv|]. intros panel. unfold Home.
  destruct (result (st (page s))); [discriminate|].
  destruct (file (st (page s))) as [f|] eqn:Hf; [|discriminate].
  simpl. intros [= <-]. exists f. simpl. by rewrite (Hpv f eq_refl).
Qed.

Lemma preview_belongs_to_chosen_file_witness :
  exists s,
    run blob local_env [Drop [long_lecture]; Drop [lecture]] opened = Some s /\
    file (st (page s)) = Some lecture /\
    previewUrl (st (page s)) = Some (blob lecture).
Proof.
  eexists. split; [vm_compute; reflexivity|]. split; [reflexivity|].
  apply (proj1 (preview_belongs_to_chosen_file blob local_env
                  [Drop [long_lecture]; Drop [lecture]] _
                  ltac:(vm_compute; reflexivity))).
  reflexivity.
Defined.

(** * More on the results view *)

Lemma pacing_card_of_pace p pace :
  JS.chain (audio_details_of p) pace_bpm = Some pace ->
  pacing_card_score p = inject_Z (Z.min (Qfloor (pace + (1 # 2))%Q) 160).
Proof. intros H. unfold pacing_card_score. by rewrite H. Qed.

(** X5. The "Pacing (BPM)" card never shows more than 160 and never
    shows less for a faster pace; from 159.5 BPM on it shows exactly 160.
    Its progress bar is fed ten times that number, so from 10.5 BPM on the
    bar's value is above 100. *)
Theorem pacing_card_is_capped_and_monotone :
  (forall p, (pacing_card_score p <= 160)%Q) /\
  (forall p1 p2 pace1 pace2,
     JS.chain (audio_details_of p1) pace_bpm = Some pace1 ->
     JS.chain (audio_details_of p2) pace_bpm = Some pace2 ->
     (pace1 <= pace2)%Q ->
     (pacing_card_score p1 <= pacing_card_score p2)%Q) /\
  (forall p pace,
     JS.chain (audio_details_of p) pace_bpm = Some pace ->
     (319 # 2 <= pace)%Q -> pacing_card_score p = 160%Q) /\
  (forall p pace,
     JS.chain (audio_details_of p) pace_bpm = Some pace ->
     (21 # 2 <= pace)%Q ->
     (100 < progress (MetricCard "Pacing (BPM)" (pacing_card_score p)))%Q).
Proof.
  split; [|split; [|split]].
  - intros p. unfold pacing_card_score, JS.Math_min.
    change 160%Q with (inject_Z 160). rewrite <- Zle_Qle. lia.
  - intros p1 p2 pace1 pace2 H1 H2 Hle.
    rewrite (pacing_card_of_pace p1 pace1 H1), (pacing_card_of_pace p2 pace2 H2).
    rewrite <- Zle_Qle.
    assert (Qfloor (pace1 + (1 # 2)) <= Qfloor (pace2 + (1 # 2)))%Z
      by (apply Qfloor_resp_le; lra).
    lia.
  - intros p pace H Hle. rewrite (pacing_card_of_pace p pace H).
    change 160%Q with (inject_Z 160). f_equal.
    assert (Qfloor (inject_Z 160) <= Qfloor (pace + (1 # 2)))%Z
      by (apply Qfloor_resp_le; change (inject_Z 160) with 160%Q; lra).
    rewrite Qfloor_Z in H0. lia.
  - intros p pace H Hle. rewrite (pacing_card_of_pace p pace H).
    unfold MetricCard. cbn [progress].
    assert (Hf : (Qfloor (inject_Z 11) <= Qfloor (pace + (1 # 2)))%Z)
      by (apply Qfloor_resp_le; change (inject_Z 11) with 11%Q; lra).
    rewrite Qfloor_Z in Hf.
    assert (Hm : (inject_Z 11 <= inject_Z (Z.min (Qfloor (pace + (1 # 2))) 160))%Q)
      by (rewrite <- Zle_Qle; lia).
    change (inject_Z 11) with 11%Q in Hm.
    set (x := inject_Z (Z.min (Qfloor (pace + (1 # 2))) 160)) in *. lra.
Qed.

Lemma pacing_card_is_capped_and_monotone_witness :
  JS.chain (audio_details_of (pipelines (scenario 120%Q))) pace_bpm = Some 120%Q /\
  JS.chain (audio_details_of (pipelines (scenario 170%Q))) pace_bpm = Some 170%Q /\
  (120 <= 170)%Q /\ (319 # 2 <= 170)%Q /\ (21 # 2 <= 120)%Q /\
  (pacing_card_score (pipelines (scenario 120%Q))
   <= pacing_card_score (pipelines (scenario 170%Q)))%Q /\
  pacing_card_score (pipelines (scenario 170%Q)) = 160%Q /\
  (100 < progress (MetricCard "Pacing (BPM)"
                     (pacing_card_score (pipelines (scenario 120%Q)))))%Q.
Proof.
  destruct pacing_card_is_capped_and_monotone as (_ & Hmono & Hcap & Hbar).
  assert (H1 : JS.chain (audio_details_of (pipelines (scenario 120%Q))) pace_bpm
               = Some 120%Q) by reflexivity.
  assert (H2 : JS.chain (audio_details_of (pipelines (scenario 170%Q))) pace_bpm
               = Some 170%Q) by reflexivity.
  assert (H3 : (120 <= 170)%Q) by (vm_compute; discriminate).
  assert (H4 : (319 # 2 <= 170)%Q) by (vm_compute; discriminate).
  assert (H5 : (21 # 2 <= 120)%Q) by (vm_compute; discriminate).
  split; [exact H1|]. split; [exact H2|]. split; [exact H3|].
  split; [exact H4|]. split; [exact H5|].
  split; [exact (Hmono _ _ _ _ H1 H2 H3)|].
  split; [exact (Hcap _ _ H2 H4)|]. exact (Hbar _ _ H1 H5).
Defined.

(** * More on the upload page *)

(** X6. An alert is on screen exactly when no result is held, a file is
    chosen and [error] is a non-empty string; an error set while no file is
    chosen, or beside a result, is not shown. *)
Theorem alert_is_shown_exactly_when s msg :
  (exists panel, Home s = Upload (Some panel) /\ alert panel = Some msg)
  <-> result s = None /\ file s <> None /\ error s = Some msg /\
      JS.truthy msg = true.
Proof.
  unfold Home. split.
  - intros (panel & Hv & Ha). destruct (result s); [discriminate|].
    destruct (file s) as [f|]; [|discriminate].
    simpl in Hv. injection Hv as <-. simpl in Ha.
    destruct (error s) as [e|]; [|discriminate]. simpl in Ha.
    destruct (JS.truthy e) eqn:Ht; [|discriminate].
    injection Ha as <-. done.
  - intros (Hr & Hf & He & Ht). rewrite Hr.
    destruct (file s) as [f|]; [|done].
    exists (render_panel s f). split; [done|]. simpl.
    by rewrite He, (truthy_opt_truthy msg Ht).
Qed.

(** X7. Dropping a file of admissible size, analyzing it with success and
    pressing "Analyze another video" brings the component back to its
    initial state, whatever state it was in before the drop; the trace has
    grown by the log line and the one request. *)
Theorem successful_cycle_returns_to_initial url env net w f rest d :
  too_large f = false ->
  net (analyze_request env f) = Fulfilled d ->
  st (analyzeAnother (handleAnalyze env net (onDrop url (f :: rest) w)))
  = initial /\
  events (analyzeAnother (handleAnalyze env net (onDrop url (f :: rest) w)))
  = events w ++ [ConsoleLog ("Uploading to: " +:+ backendUrl env);
                 AxiosPost (analyze_request env f)].
Proof.
  intros Hs Hnet. unfold handleAnalyze.
  rewrite (start_dispatch env (onDrop url (f :: rest) w) f eq_refl Hs), Hnet.
  simpl. rewrite <- app_assoc. done.
Qed.

Lemma successful_cycle_returns_to_initial_witness :
  too_large lecture = false /\
  answers (Fulfilled degraded) (analyze_request local_env lecture)
  = Fulfilled degraded /\
  st (analyzeAnother
        (handleAnalyze local_env (answers (Fulfilled degraded))
           (onDrop blob [lecture; long_lecture] chosen_long)))
  = initial.
Proof.
  assert (Hs : too_large lecture = false) by (vm_compute; reflexivity).
  split; [exact Hs|]. split; [reflexivity|].
  apply (successful_cycle_returns_to_initial blob local_env
           (answers (Fulfilled degraded)) chosen_long lecture [long_lecture]
           degraded Hs eq_refl).
Defined.



(** * More on [handleAnalyze] *)

(** X9. For the statuses 413, 503 and 504 the error text does not depend
    on the response body, nor on anything else in the rejection. For every
    other status it names the status, and a body that is missing, has no
    [detail] or has an empty [detail] reads "Unknown error occurred". *)
Theorem error_text_and_the_body :
  (forall err err' r r',
     response err = Some r -> response err' = Some r' ->
     status r = status r' ->
     status r = 413%N \/ status r = 503%N \/ status r = 504%N ->
     error_message err = error_message err') /\
  (forall err r,
     response err = Some r ->
     status r <> 413%N -> status r <> 503%N -> status r <> 504%N ->
     data r = None \/ data r = Some {| detail := None |}
     \/ data r = Some {| detail := Some "" |} ->
     error_message err
     = "❌ Server Error (" +:+ pretty (status r) +:+ "): Unknown error occurred").
Proof.
  split.
  - intros err err' r r' H H' Hst Hcode. unfold error_message.
    rewrite H, H', <- Hst.
    destruct Hcode as [-> | [-> | ->]]; reflexivity.
  - intros err r H H1 H2 H3 Hbody. unfold error_message. rewrite H.
    apply N.eqb_neq in H1, H2, H3. rewrite H1, H2, H3. simpl.
    unfold msg_server. by destruct Hbody as [-> | [-> | ->]].
Qed.

Lemma error_text_and_the_body_witness :
  error_message (http_error 413 (Some "Request Entity Too Large"))
  = error_message (http_error 413 None) /\
  error_message (http_error 422 (Some ""))
  = "❌ Server Error (422): Unknown error occurred".
Proof.
  destruct error_text_and_the_body as (Hfixed & Hunknown). split.
  - apply (Hfixed (http_error 413 (Some "Request Entity Too Large"))
             (http_error 413 None) _ _ eq_refl eq_refl eq_refl).
    left. reflexivity.
  - apply (Hunknown (http_error 422 (Some ""))
             {| status := 422; data := Some {| detail := Some "" |} |} eq_refl);
      [discriminate | discriminate | discriminate |].
    right. right. reflexivity.
Defined.

Lemma appends_nothing (l : list Event) :
  exists new, l = l ++ new /\ length (posts new) <= 1.
Proof. exists []. rewrite app_nil_r. simpl. split; [done|lia]. Qed.

(** X10. One call of [handleAnalyze] never changes the chosen file or its
    preview URL, only appends to the trace, and appends at most one
    request; the same holds for the other copy of the page. *)
Theorem handleAnalyze_keeps_the_file env net w :
  (file (st (handleAnalyze env net w)) = file (st w) /\
   previewUrl (st (handleAnalyze env net w)) = previewUrl (st w) /\
   exists new, events (handleAnalyze env net w) = events w ++ new /\
               length (posts new) <= 1) /\
  (file (st (Earlier.handleAnalyze env net w)) = file (st w) /\
   previewUrl (st (Earlier.handleAnalyze env net w)) = previewUrl (st w) /\
   exists new, events (Earlier.handleAnalyze env net w) = events w ++ new /\
               length (posts new) <= 1).
Proof.
  split.
  - unfold handleAnalyze, handleAnalyze_start.
    destruct (file (st w)) as [f|] eqn:Hf.
    + destruct (too_large f).
      * split; [done|]. split; [done|]. apply appends_nothing.
      * destruct (net (analyze_request env f)) as [d|err]; simpl;
          (split; [done|]); (split; [done|]); eexists;
          (split; [rewrite <- ?app_assoc; reflexivity | simpl; lia]).
    + split; [done|]. split; [done|]. apply appends_nothing.
  - unfold Earlier.handleAnalyze, Earlier.handleAnalyze_start.
    destruct (file (st w)) as [f|] eqn:Hf.
    + destruct (net (analyze_request env f)) as [d|err]; simpl;
        (split; [done|]); (split; [done|]); eexists;
        (split; [rewrite <- ?app_assoc; reflexivity | simpl; lia]).
    + split; [done|]. split; [done|]. apply appends_nothing.
Qed.

(** X11. A chosen file of at most 30 * 2^20 = 31457280 bytes is posted,
    once: the form holds that file under [file], the request has a timeout
    of 300000 ms and goes to [/analyze] under the configured backend URL,
    or under [http://localhost:8000] when that is unset or empty. *)
Theorem file_within_limit_is_posted env net w f :
  file (st w) = Some f -> (size f <= 31457280)%N ->
  posts (events (handleAnalyze env net w))
  = posts (events w) ++ [analyze_request env f] /\
  form_get "file" (body (analyze_request env f)) = Some (FileField f) /\
  timeout (analyze_request env f) = 300000%N /\
  (forall base, NEXT_PUBLIC_BACKEND_URL env = Some base ->
     JS.truthy base = true -> url (analyze_request env f) = base +:+ "/analyze") /\
  (NEXT_PUBLIC_BACKEND_URL env = None \/ NEXT_PUBLIC_BACKEND_URL env = Some "" ->
     url (analyze_request env f) = "http://localhost:8000/analyze").
Proof.
  intros Hf Hsize. apply too_large_false_iff in Hsize as Hs.
  split; [|split; [done|split; [done|split]]].
  - unfold handleAnalyze. rewrite (start_dispatch env w f Hf Hs).
    rewrite settle_posts. simpl. rewrite !posts_app. simpl.
    by rewrite app_nil_r.
  - intros base Hb Ht. simpl. unfold backendUrl. by rewrite Hb; simpl; rewrite Ht.
  - intros Hb. simpl. unfold backendUrl. by destruct Hb as [-> | ->].
Qed.

Lemma file_within_limit_is_posted_witness :
  file (st chosen) = Some lecture /\ (size lecture <= 31457280)%N /\
  posts (events (handleAnalyze local_env (answers (Rejected network_error)) chosen))
  = posts (events chosen) ++ [analyze_request local_env lecture] /\
  url (analyze_request local_env lecture) = "http://localhost:8000/analyze".
Proof.
  assert (Hf : file (st chosen) = Some lecture) by reflexivity.
  assert (Hs : (size lecture <= 31457280)%N) by (vm_compute; discriminate).
  destruct (file_within_limit_is_posted local_env
              (answers (Rejected network_error)) chosen lecture Hf Hs)
    as (Hp & _ & _ & _ & Hu).
  split; [exact Hf|]. split; [exact Hs|]. split; [exact Hp|].
  apply Hu. left. reflexivity.
Defined.

(** * The other copy of the page *)

(** X12. The other copy of the page has no size limit: whatever the size
    of the chosen file, one call posts it, once, and leaves [loading]
    false. *)
Theorem earlier_copy_posts_any_size env net w f :
  file (st w) = Some f ->
  posts (events (Earlier.handleAnalyze env net w))
  = posts (events w) ++ [analyze_request env f] /\
  loading (st (Earlier.handleAnalyze env net w)) = false.
Proof.
  intros Hf. unfold Earlier.handleAnalyze, Earlier.handleAnalyze_start.
  rewrite Hf. destruct (net (analyze_request env f)) as [d|err]; simpl;
    rewrite !posts_app; simpl; by rewrite ?app_nil_r.
Qed.

Lemma earlier_copy_posts_any_size_witness :
  file (st chosen_long) = Some long_lecture /\
  too_large long_lecture = true /\
  posts (events (Earlier.handleAnalyze local_env (answers (Fulfilled degraded))
                   chosen_long))
  = posts (events chosen_long) ++ [analyze_request local_env long_lecture].
Proof.
  assert (Hf : file (st chosen_long) = Some long_lecture) by reflexivity.
  split; [exact Hf|]. split; [vm_compute; reflexivity|].
  apply (earlier_copy_posts_any_size local_env (answers (Fulfilled degraded))
           chosen_long long_lecture Hf).
Defined.

(** X13. In the other copy of the page the error text is the body's
    [detail], verbatim and whatever the status, when that is a non-empty
    string; in every other case (no response, no body, no [detail], an
    empty [detail]) it is "Analysis failed. Ensure backend is running.".
    It is never empty. *)
Theorem earlier_copy_error_text err :
  (forall r b d,
     response err = Some r -> data r = Some b -> detail b = Some d ->
     JS.truthy d = true -> Earlier.error_message err = d) /\
  (response err = None \/
   (exists r, response err = Some r /\
      (data r = None \/ data r = Some {| detail := None |}
       \/ data r = Some {| detail := Some "" |})) ->
   Earlier.error_message err = "Analysis failed. Ensure backend is running.") /\
  JS.truthy (Earlier.error_message err) = true.
Proof.
  unfold Earlier.error_message. split; [|split].
  - intros r b d -> Hb Hd Ht. simpl. rewrite Hb. simpl. rewrite Hd. simpl.
    by rewrite Ht.
  - intros [-> | (r & -> & [Hb | [Hb | Hb]])]; [done| | |];
      simpl; by rewrite Hb.
  - destruct (response err) as [r|]; [|done]. simpl.
    destruct (data r) as [b|]; [|done]. simpl.
    destruct (detail b) as [d|]; [|done]. simpl.
    by destruct (JS.truthy d) eqn:Ht.
Qed.

Lemma earlier_copy_error_text_witness :
  Earlier.error_message (http_error 413 (Some "File too large"))
  = "File too large" /\
  Earlier.error_message network_error
  = "Analysis failed. Ensure backend is running.".
Proof.
  split.
  - apply (proj1 (earlier_copy_error_text
                    (http_error 413 (Some "File too large")))
             {| status := 413; data := Some {| detail := Some "File too large" |} |}
             {| detail := Some "File too large" |} "File too large");
      reflexivity.
  - apply (proj1 (proj2 (earlier_copy_error_text network_error))).
    left. reflexivity.
Defined.

(** * More on rendering *)

(** X14. The transcript box is never empty: it shows the transcript when
    that is a non-empty string, and "No transcript available." when the
    transcript is absent or empty. *)
Theorem transcript_box_is_never_empty r :
  JS.truthy (transcript_text (render_results r)) = true /\
  (forall t, transcript r = Some t -> JS.truthy t = true ->
     transcript_text (render_results r) = t) /\
  (transcript r = None \/ transcript r = Some "" ->
     transcript_text (render_results r) = "No transcript available.").
Proof.
  simpl. split; [|split].
  - destruct (transcript r) as [t|]; [|done]. simpl.
    by destruct (JS.truthy t) eqn:Ht.
  - intros t -> Ht. simpl. by rewrite Ht.
  - by intros [-> | ->].
Qed.

Lemma transcript_box_is_never_empty_witness :
  transcript degraded = Some "Today we look at recursion." /\
  transcript_text (render_results degraded) = "Today we look at recursion.".
Proof.
  split; [reflexivity|].
  apply (proj1 (proj2 (transcript_box_is_never_empty degraded)));
    reflexivity.
Defined.

Lemma texts_of_strengths (l : list string) : li_text <$> imap LiStrength l = l.
Proof.
  rewrite fmap_imap.
  rewrite (imap_ext _ (const id) l) by done.
  by rewrite imap_const, list_fmap_id.
Qed.

Lemma texts_of_concepts (l : list string) :
  li_text <$> imap LiConcept l = (fun c => "Consider covering: " +:+ c) <$> l.
Proof.
  rewrite fmap_imap.
  rewrite (imap_ext _ (const (fun c => "Consider covering: " +:+ c)) l) by done.
  by rewrite imap_const.
Qed.

(** X15. Lists that are present are rendered item for item and in order:
    the strengths verbatim, with their positions as keys, and each missing
    concept behind "Consider covering: "; the pace advisory, when there is
    one, is the last item of the insights. *)
Theorem lists_are_rendered_in_order r :
  (forall l, JS.chain (content_of (pipelines r)) key_strengths = Some l ->
     li_text <$> strengths (render_results r) = l /\
     forall i s, l !! i = Some s ->
       strengths (render_results r) !! i = Some (LiStrength i s)) /\
  (forall l, JS.chain (content_of (pipelines r)) missing_concepts = Some l ->
     li_text <$> insights (render_results r)
     = ((fun c => "Consider covering: " +:+ c) <$> l)
       ++ (li_text <$> pace_advisory (pipelines r))) /\
  (LiSlowDown ∈ insights (render_results r) ->
     last (insights (render_results r)) = Some LiSlowDown).
Proof.
  simpl. split; [|split].
  - intros l Hl. rewrite strengths_list_cases, Hl.
    split; [apply texts_of_strengths|].
    intros i s Hi. by rewrite list_lookup_imap, Hi.
  - intros l Hl. rewrite concepts_list_cases, Hl, fmap_app.
    by rewrite texts_of_concepts.
  - rewrite elem_of_app. intros [H|H].
    + by apply slow_down_not_in_concepts in H.
    + destruct (pace_advisory_cases (pipelines r)) as [E|E]; rewrite E in *.
      * inversion H.
      * by rewrite last_snoc.
Qed.

Lemma lists_are_rendered_in_order_witness :
  JS.chain (content_of (pipelines (scenario 151%Q))) key_strengths
  = Some ["Clear examples"] /\
  li_text <$> strengths (render_results (scenario 151%Q)) = ["Clear examples"] /\
  last (insights (render_results (scenario 151%Q))) = Some LiSlowDown.
Proof.
  destruct (lists_are_rendered_in_order (scenario 151%Q)) as (Hs & _ & Hl).
  split; [reflexivity|]. split.
  - apply (Hs ["Clear examples"]). reflexivity.
  - apply Hl. apply list_elem_of_here.
Defined.

(** * More on the drop handler *)

(** X16. The drop handler at its edges. Of several accepted files only
    the first is taken. A drop with no accepted file clears the chosen file
    and nothing else: preview URL, error, result and [loading] stay as they
    were; with no result held, the page then shows the bare dropzone (no
    file name, preview, alert or button), and [handleAnalyze] does
    nothing. *)
Theorem drop_takes_the_first_file_or_none url env net w :
  (forall f rest, onDrop url (f :: rest) w = onDrop url [f] w) /\
  file (st (onDrop url [] w)) = None /\
  previewUrl (st (onDrop url [] w)) = previewUrl (st w) /\
  error (st (onDrop url [] w)) = error (st w) /\
  result (st (onDrop url [] w)) = result (st w) /\
  loading (st (onDrop url [] w)) = loading (st w) /\
  (result (st w) = None -> Home (st (onDrop url [] w)) = Upload None) /\
  handleAnalyze env net (onDrop url [] w) = onDrop url [] w.
Proof.
  repeat split; try done.
  intros Hr. unfold Home. simpl. by rewrite Hr.
Qed.

Lemma drop_takes_the_first_file_or_none_witness :
  result (st chosen) = None /\
  Home (st (onDrop blob [] chosen)) = Upload None /\
  previewUrl (st (onDrop blob [] chosen)) = Some (blob lecture).
Proof.
  destruct (drop_takes_the_first_file_or_none blob local_env
              (answers (Fulfilled degraded)) chosen)
    as (_ & _ & Hp & _ & _ & _ & Hv & _).
  split; [reflexivity|]. split; [apply Hv; reflexivity|].
  rewrite Hp. reflexivity.
Defined.

(** * More on the size message and the pending page *)

(** X17. The size message of a rejected file never reports less than
    30.0 MB: it prints the size in MB with one decimal, whose whole part is
    at least 30, followed by the fixed limit of 30MB. *)
Theorem size_message_reports_at_least_30 f :
  too_large f = true ->
  exists whole tenth,
    (30 <= whole)%N /\ (tenth < 10)%N /\
    too_large_message f
    = "⚠️ File is too large (" +:+ (pretty whole +:+ "." +:+ pretty tenth) +:+
      " MB). The limit is 30MB. Please trim or compress the video.".
Proof.
  intros Hl. unfold too_large in Hl. apply gt_iff in Hl.
  change (inject_Z (Z.of_N MAX_FILE_SIZE_MB)) with 30%Q in Hl.
  set (n := Z.to_N (Qfloor (fileSizeMB f * 10 + (1 # 2))%Q)).
  assert (Hn : (300 <= n)%N).
  { assert (Hfl : (Qfloor (inject_Z 300)
                   <= Qfloor (fileSizeMB f * 10 + (1 # 2))%Q)%Z)
      by (apply Qfloor_resp_le; change (inject_Z 300) with 300%Q; lra).
    rewrite Qfloor_Z in Hfl. unfold n. lia. }
  exists (n / 10)%N, (n mod 10)%N. split; [|split].
  - change 30%N with (300 / 10)%N. by apply N.Div0.div_le_mono.
  - by apply N.mod_lt.
  - reflexivity.
Qed.

Lemma size_message_reports_at_least_30_witness :
  too_large long_lecture = true /\
  exists whole tenth,
    (30 <= whole)%N /\ (tenth < 10)%N /\
    too_large_message long_lecture
    = "⚠️ File is too large (" +:+ (pretty whole +:+ "." +:+ pretty tenth) +:+
      " MB). The limit is 30MB. Please trim or compress the video.".
Proof.
  assert (H : too_large long_lecture = true) by (vm_compute; reflexivity).
  split; [exact H|]. exact (size_message_reports_at_least_30 long_lecture H).
Defined.


